(** * GMRTBOT: the threshold trading loop

    A shallow embedding of the decision logic of [gmrt_sell_bot.py] (the
    constants, the helper functions and the body of the main trading loop)
    and of the trigger predicates of [mock_test_bot.py].

    Numbers.  The prices and amounts of the script are Python ints and
    floats; they are embedded as exact rationals ([Q]), with Python's
    comparison operators as the boolean comparisons of [Q].  Rounding of
    binary floating point and the special values (nan, inf) are outside
    the model.

    The exchange.  [exchange] is a third-party client object; every method
    the script calls on it either returns a value or raises.  One iteration
    of the loop sees one [Exchange] record that fixes what each call
    answers during that iteration.

    Effects.  The script mutates two globals ([remaining_tokens] and
    [active_orders]) and talks to the exchange.  A function that does so
    is a computation in [Bot]: it takes the globals and returns its value,
    the new globals and the list of the calls it made, oldest first. *)

From Stdlib Require Import ZArith QArith Qminmax List Sorted String Bool Lia Lqa.
Import ListNotations.
Local Open Scope Q_scope.

(** ** Python builtins used by the script *)

(** [x < y] on numbers. *)
Definition Qlt_bool (x y : Q) : bool := negb (Qle_bool y x).

(** [max(a, b)]: the first argument is kept unless the second is
    strictly greater. *)
Definition py_max (a b : Q) : Q := if Qlt_bool a b then b else a.

(** [min(a, b)]: the first argument is kept unless the second is
    strictly smaller. *)
Definition py_min (a b : Q) : Q := if Qlt_bool b a then b else a.

(** [min(iterable, default=d)]: [d] for an empty iterable, otherwise the
    first smallest element. *)
Definition py_min_default (l : list Q) (d : Q) : Q :=
  match l with
  | [] => d
  | x :: rest => fold_left py_min rest x
  end.

(** [sum(l)]: starts from 0 and adds from the left. *)
Definition py_sum (l : list Q) : Q := fold_left Qplus l 0.

(** ** Data of the exchange client *)

Inductive result (A : Type) : Type :=
| Returned (a : A)
| Raised.
Arguments Returned {A} a.
Arguments Raised {A}.

Definition order_id := string.

Inductive order_side := buy | sell.

Definition order_side_eqb (a b : order_side) : bool :=
  match a, b with
  | buy, buy | sell, sell => true
  | _, _ => false
  end.

(** An open order as the script reads it: [order['user']],
    [order['side']], [order['price']]. *)
Record order := {
  user : string;
  side : order_side;
  price : Q
}.

(** [ticker['last']]. *)
Record ticker := { last : Q }.

(** A level of the book is a pair [[price, amount]]; [bid[1]] is [snd]. *)
Record order_book := {
  bids : list (Q * Q);
  asks : list (Q * Q)
}.

(** What the exchange answers during one iteration of the loop.  The order
    methods take [amount] before [price], as in the client library. *)
Record Exchange := {
  fetch_ticker : result ticker;
  fetch_order_book : result order_book;
  fetch_open_orders : result (list order);
  cancel_order : order_id -> result unit;
  create_limit_buy_order : Q -> Q -> result order_id;
  create_limit_sell_order : Q -> Q -> result order_id
}.

(** ** Constants *)

Definition MIN_SELL_PRICE : Q := 0.30.
Definition FLOOR_PRICE : Q := 0.24.
Definition LAUNCH_PRICE : Q := 0.12.
Definition TOTAL_TOKENS : Q := 5000000.
Definition DEPTH_PERCENTAGE : Q := 0.02.
Definition BASE_TRADE_AMOUNT : Q := 250000.
Definition MM_UID : string := "20368306".

(** ** The globals and the [Bot] computations *)

Record globals := {
  remaining_tokens : Q;
  active_orders : list order_id
}.

(** The module-level initialisation. *)
Definition initial : globals :=
  {| remaining_tokens := TOTAL_TOKENS; active_orders := [] |}.

(** The calls that act on the exchange account or on time.  A call is
    recorded when it is made, whether it then returns or raises. *)
Inductive call :=
| CancelOrder (id : order_id)
| LimitSell (amount price : Q)
| LimitBuy (amount price : Q)
| Sleep (seconds : Z).

Definition Bot (A : Type) : Type := globals -> A * globals * list call.

Definition ret {A} (a : A) : Bot A := fun g => (a, g, []).

Definition bind {A B} (m : Bot A) (k : A -> Bot B) : Bot B :=
  fun g =>
    let '(a, g1, c1) := m g in
    let '(b, g2, c2) := k a g1 in
    (b, g2, c1 ++ c2).

Notation "x <- m ;; k" := (bind m (fun x => k))
  (at level 61, m at next level, right associativity).
Notation "m ;; k" := (bind m (fun _ => k))
  (at level 61, right associativity).

Definition gets {A} (f : globals -> A) : Bot A := fun g => (f g, g, []).
Definition emit (c : call) : Bot unit := fun g => (tt, g, [c]).

Definition set_remaining_tokens (v : Q) : Bot unit :=
  fun g => (tt, {| remaining_tokens := v; active_orders := active_orders g |}, []).
Definition set_active_orders (l : list order_id) : Bot unit :=
  fun g => (tt, {| remaining_tokens := remaining_tokens g; active_orders := l |}, []).

(** The three components of a finished computation. *)
Definition value {A} (r : A * globals * list call) : A := fst (fst r).
Definition final {A} (r : A * globals * list call) : globals := snd (fst r).
Definition calls {A} (r : A * globals * list call) : list call := snd r.

(** ** The functions of gmrt_sell_bot.py *)

(** [get_price]: the last price, or [None] when the fetch raised. *)
Definition get_price (exchange : Exchange) : option Q :=
  match fetch_ticker exchange with
  | Returned ticker => Some (last ticker)
  | Raised => None
  end.

(** [get_order_book]: the book, or [None] when the fetch raised. *)
Definition get_order_book (exchange : Exchange) : option order_book :=
  match fetch_order_book exchange with
  | Returned order_book => Some order_book
  | Raised => None
  end.

(** [get_mm_orders]: the open orders of the market maker, or the empty
    list when the fetch raised. *)
Definition get_mm_orders (exchange : Exchange) : list order :=
  match fetch_open_orders exchange with
  | Returned all_orders =>
      filter (fun order => String.eqb (user order) MM_UID) all_orders
  | Raised => []
  end.

(** The [for] loop of [cancel_active_orders]: one cancel request per
    listed id; an exception is logged and the loop goes on. *)
Fixpoint cancel_each (exchange : Exchange) (ids : list order_id) : Bot unit :=
  match ids with
  | [] => ret tt
  | order_id :: rest =>
      emit (CancelOrder order_id) ;;
      match cancel_order exchange order_id with
      | Returned _ => ret tt
      | Raised => ret tt
      end ;;
      cancel_each exchange rest
  end.

Definition cancel_active_orders (exchange : Exchange) : Bot unit :=
  ids <- gets active_orders ;;
  cancel_each exchange ids ;;
  set_active_orders [].

Definition get_dynamic_trade_amount (order_book : order_book) : Bot Q :=
  let bids := firstn 5 (bids order_book) in
  let total_liquidity := py_sum (map snd bids) in
  remaining <- gets remaining_tokens ;;
  let dynamic_amount :=
    py_min remaining (py_max BASE_TRADE_AMOUNT (total_liquidity * 0.5)) in
  ret dynamic_amount.

Definition place_buy_order (exchange : Exchange) (price amount : Q) : Bot unit :=
  emit (LimitBuy amount price) ;;
  match create_limit_buy_order exchange amount price with
  | Returned id =>
      ids <- gets active_orders ;;
      set_active_orders (ids ++ [id])
  | Raised => ret tt
  end.

Definition place_sell_order (exchange : Exchange) (price amount : Q) : Bot unit :=
  emit (LimitSell amount price) ;;
  match create_limit_sell_order exchange amount price with
  | Returned id =>
      ids <- gets active_orders ;;
      set_active_orders (ids ++ [id])
  | Raised => ret tt
  end.

(** The two tests of the loop body on the current price. *)
Definition sell_trigger (current_price : Q) : bool :=
  Qle_bool MIN_SELL_PRICE current_price.

Definition buy_trigger (current_price : Q) : bool :=
  Qlt_bool LAUNCH_PRICE current_price && Qle_bool FLOOR_PRICE current_price.

(** [not current_price]: true for [None] and for a zero price. *)
Definition py_not_price (p : option Q) : bool :=
  match p with
  | None => true
  | Some q => Qeq_bool q 0
  end.

(** The part of the loop body after both fetches went through. *)
Definition trade (exchange : Exchange) (current_price : Q)
    (order_book : order_book) : Bot unit :=
  let mm_orders := get_mm_orders exchange in
  cancel_active_orders exchange ;;
  let min_depth_price := current_price * (1 - DEPTH_PERCENTAGE) in
  (if sell_trigger current_price then
     let sell_price := py_max min_depth_price MIN_SELL_PRICE in
     sell_amount <- get_dynamic_trade_amount order_book ;;
     place_sell_order exchange sell_price sell_amount ;;
     remaining <- gets remaining_tokens ;;
     set_remaining_tokens (remaining - sell_amount)
   else ret tt) ;;
  (if buy_trigger current_price then
     let mm_buy_price :=
       py_min_default
         (map price
            (filter (fun order => order_side_eqb (side order) buy) mm_orders))
         min_depth_price in
     let buy_price := py_max min_depth_price mm_buy_price in
     buy_amount <- get_dynamic_trade_amount order_book ;;
     place_buy_order exchange buy_price buy_amount
   else ret tt) ;;
  emit (Sleep 5).

(** One iteration of [while remaining_tokens > 0]. *)
Definition trading_cycle (exchange : Exchange) : Bot unit :=
  let current_price := get_price exchange in
  if py_not_price current_price then emit (Sleep 5)
  else
    match current_price, get_order_book exchange with
    | Some current_price, Some order_book =>
        trade exchange current_price order_book
    | _, _ => emit (Sleep 5)
    end.

(** The main trading loop over the successive answers of the exchange;
    it stops when the counter is no longer positive (or when the list of
    answers is used up). *)
Fixpoint main_loop (market : list Exchange) : Bot unit :=
  match market with
  | [] => ret tt
  | exchange :: later =>
      remaining <- gets remaining_tokens ;;
      if Qlt_bool 0 remaining then
        trading_cycle exchange ;; main_loop later
      else ret tt
  end.

(** ** The trigger logic of mock_test_bot.py *)

Module MockBot.

Definition TEST_BALANCE : Q := 5000000.

(** Bot parameters (from original bot). *)
Definition MIN_SELL_PRICE : Q := 0.30.
Definition FLOOR_PRICE : Q := 0.24.
Definition LAUNCH_PRICE : Q := 0.12.
Definition BASE_TRADE_AMOUNT : Q := 250000.

Inductive trade_type := SELL | BUY.

(** An entry of [self.trades] (without its wall-clock time). *)
Record trade_entry := {
  type : trade_type;
  price : Q;
  amount : Q;
  value : Q
}.

(** The fields of [MockBot] that [simulate_trade] updates. *)
Record bot := {
  remaining_tokens : Q;
  total_sold : Q;
  total_bought : Q;
  trades : list trade_entry;
  total_sell_value : Q;
  total_buy_value : Q
}.

Definition init : bot :=
  {| remaining_tokens := TEST_BALANCE; total_sold := 0; total_bought := 0;
     trades := []; total_sell_value := 0; total_buy_value := 0 |}.

Definition sell_trigger (price : Q) : bool :=
  Qle_bool MIN_SELL_PRICE price.

Definition buy_trigger (price : Q) : bool :=
  Qlt_bool LAUNCH_PRICE price && Qle_bool FLOOR_PRICE price.

(** The sell logic of one simulated cycle. *)
Definition simulate_sell (price : Q) (self : bot) : bot :=
  if sell_trigger price then
    let sell_amount := py_min BASE_TRADE_AMOUNT (remaining_tokens self) in
    if Qlt_bool 0 sell_amount then
      {| remaining_tokens := remaining_tokens self - sell_amount;
         total_sold := total_sold self + sell_amount;
         total_bought := total_bought self;
         trades := trades self ++
           [{| type := SELL; price := price; amount := sell_amount;
               value := sell_amount * price |}];
         total_sell_value := total_sell_value self + sell_amount * price;
         total_buy_value := total_buy_value self |}
    else self
  else self.

(** The buy logic of one simulated cycle. *)
Definition simulate_buy (price : Q) (self : bot) : bot :=
  if buy_trigger price then
    let buy_amount := BASE_TRADE_AMOUNT in
    {| remaining_tokens := remaining_tokens self + buy_amount;
       total_sold := total_sold self;
       total_bought := total_bought self + buy_amount;
       trades := trades self ++
         [{| type := BUY; price := price; amount := buy_amount;
             value := buy_amount * price |}];
       total_sell_value := total_sell_value self;
       total_buy_value := total_buy_value self + buy_amount * price |}
  else self.

(** [simulate_trade], given the price the simulated market moved to. *)
Definition simulate_trade (price : Q) (self : bot) : bot :=
  simulate_buy price (simulate_sell price self).

End MockBot.

(** ** Reachable globals of the trading loop *)

(** The globals at the head of the [while] loop: the initial ones, and
    those left by an iteration that the loop condition let run. *)
Inductive reachable : globals -> Prop :=
| reachable_initial : reachable initial
| reachable_cycle (exchange : Exchange) (g : globals) :
    reachable g ->
    0 < remaining_tokens g ->
    reachable (final (trading_cycle exchange g)).

(** ** Observations on a list of calls *)

Definition is_order (c : call) : bool :=
  match c with
  | LimitSell _ _ | LimitBuy _ _ => true
  | _ => false
  end.

(** The orders submitted, in order of submission. *)
Definition orders_submitted (l : list call) : list call := filter is_order l.

(** The ids for which a cancel request was made, in order. *)
Fixpoint cancel_attempts (l : list call) : list order_id :=
  match l with
  | [] => []
  | CancelOrder id :: rest => id :: cancel_attempts rest
  | _ :: rest => cancel_attempts rest
  end.

(** What [get_dynamic_trade_amount] computes from the counter and the
    book, as an expression. *)
Definition dynamic_amount (remaining : Q) (book : order_book) : Q :=
  py_min remaining
    (py_max BASE_TRADE_AMOUNT
       (py_sum (map snd (firstn 5 (bids book))) * 0.5)).

(** The price of the limit sell and of the limit buy, as expressions. *)
Definition sell_price_of (current_price : Q) : Q :=
  py_max (current_price * (1 - DEPTH_PERCENTAGE)) MIN_SELL_PRICE.

Definition mm_buy_prices (mm_orders : list order) : list Q :=
  map price (filter (fun order => order_side_eqb (side order) buy) mm_orders).

Definition buy_price_of (current_price : Q) (mm_orders : list order) : Q :=
  let min_depth_price := current_price * (1 - DEPTH_PERCENTAGE) in
  py_max min_depth_price
    (py_min_default (mm_buy_prices mm_orders) min_depth_price).

(** The counter after the sell branch of an iteration. *)
Definition remaining_after_sell (p remaining : Q) (book : order_book) : Q :=
  if sell_trigger p then remaining - dynamic_amount remaining book
  else remaining.

(** The ids an order call adds to [active_orders]. *)
Definition placed (r : result order_id) : list order_id :=
  match r with
  | Returned id => [id]
  | Raised => []
  end.

(** The orders an iteration decides on, from the current price, the
    counter, the book and the market maker's orders. *)
Definition decisions (p remaining : Q) (book : order_book)
    (mm_orders : list order) : list call :=
  (if sell_trigger p
   then [LimitSell (dynamic_amount remaining book) (sell_price_of p)]
   else []) ++
  (if buy_trigger p
   then [LimitBuy
           (dynamic_amount (remaining_after_sell p remaining book) book)
           (buy_price_of p mm_orders)]
   else []).

(** Both fetches of the iteration went through, with a price Python
    takes as true: the iteration gets as far as [cancel_active_orders]. *)
Definition fetches_ok (exchange : Exchange) : bool :=
  negb (py_not_price (get_price exchange)) &&
  match get_order_book exchange with
  | Some _ => true
  | None => false
  end.

(** The trade size in the words of the description: the smaller of the
    counter and the larger of the base size and half of the summed
    amounts of the best five bid levels. *)
Definition best_five_bid_amounts (book : order_book) : list Q :=
  map snd (firstn 5 (bids book)).

Definition spec_trade_amount (remaining : Q) (book : order_book) : Q :=
  Qmin remaining
    (Qmax BASE_TRADE_AMOUNT
       (0.5 * fold_right Qplus 0 (best_five_bid_amounts book))).

(** A sample market, used to run the definitions. *)
Module Sample.

Definition book : order_book :=
  {| bids := [(0.34, 100000); (0.33, 200000); (0.32, 300000);
              (0.31, 400000); (0.30, 500000); (0.29, 9000000)];
     asks := [(0.36, 1000)] |}.

Definition mm : list order :=
  [ {| user := MM_UID; side := buy; price := 0.3465 |};
    {| user := "7"; side := buy; price := 0.01 |};
    {| user := MM_UID; side := sell; price := 0.3535 |};
    {| user := MM_UID; side := buy; price := 0.343 |} ].

(** Every call returns; the last price is [p]. *)
Definition calm (p : Q) : Exchange :=
  {| fetch_ticker := Returned {| last := p |};
     fetch_order_book := Returned book;
     fetch_open_orders := Returned mm;
     cancel_order := fun _ => Returned tt;
     create_limit_buy_order := fun _ _ => Returned "b1"%string;
     create_limit_sell_order := fun _ _ => Returned "s1"%string |}.

(** The ticker cannot be fetched. *)
Definition no_ticker : Exchange :=
  {| fetch_ticker := Raised;
     fetch_order_book := Returned book;
     fetch_open_orders := Returned mm;
     cancel_order := fun _ => Returned tt;
     create_limit_buy_order := fun _ _ => Returned "b2"%string;
     create_limit_sell_order := fun _ _ => Returned "s2"%string |}.

(** The book cannot be fetched, and every order call raises. *)
Definition no_book (p : Q) : Exchange :=
  {| fetch_ticker := Returned {| last := p |};
     fetch_order_book := Raised;
     fetch_open_orders := Raised;
     cancel_order := fun _ => Raised;
     create_limit_buy_order := fun _ _ => Raised;
     create_limit_sell_order := fun _ _ => Raised |}.

(** Fetches go through, every cancel and every order call raises. *)
Definition rejecting (p : Q) : Exchange :=
  {| fetch_ticker := Returned {| last := p |};
     fetch_order_book := Returned book;
     fetch_open_orders := Raised;
     cancel_order := fun _ => Raised;
     create_limit_buy_order := fun _ _ => Raised;
     create_limit_sell_order := fun _ _ => Raised |}.

End Sample.

(** The globals after a first iteration that placed [s1] and [b1]. *)
Definition after_first_cycle : globals :=
  final (trading_cycle (Sample.calm 0.35) initial).

(** ** Further observations on a list of calls *)

Definition is_sell (c : call) : bool :=
  match c with
  | LimitSell _ _ => true
  | _ => false
  end.

Definition is_buy (c : call) : bool :=
  match c with
  | LimitBuy _ _ => true
  | _ => false
  end.

(** The number of limit sells among the calls. *)
Definition count_sells (l : list call) : nat := List.length (filter is_sell l).

(** ** The simulated market of mock_test_bot.py *)

(** The book type, under a name that the field [order_book] of the
    market does not hide. *)
Definition order_book_dict : Type := order_book.

Module MockMarket.

(** Mock market parameters. *)
Definition INITIAL_PRICE : Q := 0.35.
Definition VOLATILITY : Q := 0.03.
Definition SIMULATION_CYCLES : nat := 30.

(** A simulated market-maker order: a dict with the keys [side],
    [price] and [amount]. *)
Record mm_order := {
  side : order_side;
  price : Q;
  amount : Q
}.

(** The fields of [MockMarket]; a timestamp is a reading of the clock. *)
Record market := {
  current_price : Q;
  order_book : order_book_dict;
  mm_orders : list mm_order;
  price_history : list Q;
  timestamps : list Z
}.

(** [__init__]. *)
Definition init : market :=
  {| current_price := INITIAL_PRICE;
     order_book := {| bids := []; asks := [] |};
     mm_orders := [];
     price_history := [];
     timestamps := [] |}.

(** [update_price]; [u] is what [random.uniform(-VOLATILITY, VOLATILITY)]
    returned and [now] what [datetime.now()] returned. *)
Definition update_price (u : Q) (now : Z) (self : market) : Q * market :=
  let trend :=
    if Nat.ltb (Nat.modulo (List.length (price_history self)) 10) 5
    then - 0.001 else 0.001 in
  let change := u + trend in
  let new_price := current_price self * (1 + change) in
  (new_price,
   {| current_price := new_price;
      order_book := order_book self;
      mm_orders := mm_orders self;
      price_history := price_history self ++ [new_price];
      timestamps := timestamps self ++ [now] |}).

(** [generate_order_book]; [bid_amount i] and [ask_amount i] are what
    [random.uniform(1000, 10000)] returned for level [i] of each side. *)
Definition generate_order_book (bid_amount ask_amount : nat -> Q)
    (self : market) : order_book_dict * market :=
  let spread := current_price self * 0.01 in
  let book :=
    {| bids :=
         map (fun i =>
                (current_price self - spread * inject_Z (Z.of_nat (i + 1)),
                 bid_amount i))
             (seq 0 5);
       asks :=
         map (fun i =>
                (current_price self + spread * inject_Z (Z.of_nat (i + 1)),
                 ask_amount i))
             (seq 0 5) |} in
  (book,
   {| current_price := current_price self;
      order_book := book;
      mm_orders := mm_orders self;
      price_history := price_history self;
      timestamps := timestamps self |}).

(** [simulate_mm_orders]. *)
Definition simulate_mm_orders (self : market) : list mm_order * market :=
  let orders :=
    [ {| side := buy; price := current_price self * 0.99; amount := 5000 |};
      {| side := buy; price := current_price self * 0.98; amount := 10000 |};
      {| side := sell; price := current_price self * 1.01; amount := 5000 |} ] in
  (orders,
   {| current_price := current_price self;
      order_book := order_book self;
      mm_orders := orders;
      price_history := price_history self;
      timestamps := timestamps self |}).

End MockMarket.

(** ** The simulation of mock_test_bot.py, with its market *)

Module MockRun.

(** What the random generator and the clock return during one simulated
    cycle. *)
Record draws := {
  u : Q;
  now : Z;
  bid_amount : nat -> Q;
  ask_amount : nat -> Q
}.

(** The draws lie in the ranges asked of [random.uniform]. *)
Definition in_range (d : draws) : Prop :=
  - MockMarket.VOLATILITY <= u d /\ u d <= MockMarket.VOLATILITY /\
  forall i, (1000 <= bid_amount d i /\ bid_amount d i <= 10000) /\
            (1000 <= ask_amount d i /\ ask_amount d i <= 10000).

(** [MockBot.simulate_trade]: the market moves, makes its book and its
    market-maker orders, and the bot applies its sell and buy logic to
    the new price. *)
Definition simulate_trade (d : draws) (st : MockMarket.market * MockBot.bot)
    : MockMarket.market * MockBot.bot :=
  let '(price, m1) := MockMarket.update_price (u d) (now d) (fst st) in
  let '(order_book, m2) :=
    MockMarket.generate_order_book (bid_amount d) (ask_amount d) m1 in
  let '(mm_orders, m3) := MockMarket.simulate_mm_orders m2 in
  (m3, MockBot.simulate_trade price (snd st)).

(** The [for] loop of [run_simulation], one [draws] per cycle, from a
    fresh market and a fresh bot. *)
Definition run_simulation (cycles : list draws)
    : MockMarket.market * MockBot.bot :=
  fold_left (fun st d => simulate_trade d st) cycles
    (MockMarket.init, MockBot.init).

(** The bot after the cycles whose market prices are [prices]. *)
Definition run_prices (prices : list Q) (self : MockBot.bot) : MockBot.bot :=
  fold_left (fun b p => MockBot.simulate_trade p b) prices self.

(** The total of a field over the trades of one type. *)
Definition is_type (t : MockBot.trade_type) (e : MockBot.trade_entry) : bool :=
  match t, MockBot.type e with
  | MockBot.SELL, MockBot.SELL | MockBot.BUY, MockBot.BUY => true
  | _, _ => false
  end.

Definition total (f : MockBot.trade_entry -> Q) (t : MockBot.trade_type)
    (l : list MockBot.trade_entry) : Q :=
  fold_right Qplus 0 (map f (filter (is_type t) l)).

(** [price_changes] of the final summary: the percentage change between
    consecutive entries of the price history. *)
Definition price_changes (history : list Q) : list Q :=
  map (fun ab => 100 * (snd ab / fst ab - 1))
    (combine (removelast history) (tl history)).

End MockRun.

(** The totals of the bot agree with its log of trades. *)
Definition totals_match_log (b : MockBot.bot) : Prop :=
  MockBot.total_sold b
  == MockRun.total MockBot.amount MockBot.SELL (MockBot.trades b) /\
  MockBot.total_bought b
  == MockRun.total MockBot.amount MockBot.BUY (MockBot.trades b) /\
  MockBot.total_sell_value b
  == MockRun.total MockBot.value MockBot.SELL (MockBot.trades b) /\
  MockBot.total_buy_value b
  == MockRun.total MockBot.value MockBot.BUY (MockBot.trades b).

(** [x] is the price of an open order that the exchange returned, whose
    user is the market maker and whose side is buy. *)
Definition mm_open_buy_price (exchange : Exchange) (x : Q) : Prop :=
  exists all_orders o,
    fetch_open_orders exchange = Returned all_orders /\
    In o all_orders /\ user o = MM_UID /\ side o = buy /\ price o = x.

(** A market whose market maker bids above 98% of the last price 0.35;
    one bid of another user lies far below. *)
Definition mm_bids_high : Exchange :=
  {| fetch_ticker := Returned {| last := 0.35 |};
     fetch_order_book := Returned Sample.book;
     fetch_open_orders :=
       Returned
         [ {| user := MM_UID; side := buy; price := 0.349 |};
           {| user := "7"; side := buy; price := 0.01 |};
           {| user := MM_UID; side := sell; price := 0.3535 |};
           {| user := MM_UID; side := buy; price := 0.3465 |} ];
     cancel_order := fun _ => Returned tt;
     create_limit_buy_order := fun _ _ => Returned "b3"%string;
     create_limit_sell_order := fun _ _ => Returned "s3"%string |}.

(** The trade entries a simulated cycle logs at price [p] when it sells
    and when it buys the base size. *)
Definition mock_sell_entry (p : Q) : MockBot.trade_entry :=
  {| MockBot.type := MockBot.SELL; MockBot.price := p;
     MockBot.amount := MockBot.BASE_TRADE_AMOUNT;
     MockBot.value := MockBot.BASE_TRADE_AMOUNT * p |}.

Definition mock_buy_entry (p : Q) : MockBot.trade_entry :=
  {| MockBot.type := MockBot.BUY; MockBot.price := p;
     MockBot.amount := MockBot.BASE_TRADE_AMOUNT;
     MockBot.value := MockBot.BASE_TRADE_AMOUNT * p |}.

(** * Properties *)

(** ** Comparisons and the Python builtins *)

Lemma Qlt_bool_iff (x y : Q) : Qlt_bool x y = true <-> x < y.
Proof.
  unfold Qlt_bool. rewrite negb_true_iff, <- not_true_iff_false, Qle_bool_iff.
  split; [apply Qnot_le_lt | apply Qlt_not_le].
Qed.

Lemma Qlt_bool_false_iff (x y : Q) : Qlt_bool x y = false <-> y <= x.
Proof.
  unfold Qlt_bool. rewrite negb_false_iff. apply Qle_bool_iff.
Qed.

(** Python's two-argument [max] and [min] pick the same argument as the
    library's [Qmax] and [Qmin], also on ties. *)
Lemma py_max_Qmax (a b : Q) : py_max a b = Qmax a b.
Proof.
  unfold py_max, Qmax, GenericMinMax.gmax, Qlt_bool, Qle_bool, Qcompare.
  destruct (Z.compare_spec (Qnum a * QDen b) (Qnum b * QDen a)) as [E|L|G].
  - rewrite E, Z.leb_refl. reflexivity.
  - apply Z.leb_gt in L. rewrite L. reflexivity.
  - apply Z.lt_le_incl, Z.leb_le in G. rewrite G. reflexivity.
Qed.

Lemma py_min_Qmin (a b : Q) : py_min a b = Qmin a b.
Proof.
  unfold py_min, Qmin, GenericMinMax.gmin, Qlt_bool, Qle_bool, Qcompare.
  destruct (Z.compare_spec (Qnum a * QDen b) (Qnum b * QDen a)) as [E|L|G].
  - rewrite E, Z.leb_refl. reflexivity.
  - apply Z.lt_le_incl, Z.leb_le in L. rewrite L. reflexivity.
  - apply Z.leb_gt in G. rewrite G. reflexivity.
Qed.

Lemma py_max_l (a b : Q) : a <= py_max a b.
Proof. rewrite py_max_Qmax. apply Q.le_max_l. Qed.

Lemma py_max_r (a b : Q) : b <= py_max a b.
Proof. rewrite py_max_Qmax. apply Q.le_max_r. Qed.

Lemma py_min_l (a b : Q) : py_min a b <= a.
Proof. rewrite py_min_Qmin. apply Q.le_min_l. Qed.

Lemma py_min_r (a b : Q) : py_min a b <= b.
Proof. rewrite py_min_Qmin. apply Q.le_min_r. Qed.

(** The running minimum of the [min] builtin is below its start and below
    every element, and is one of them. *)
Lemma fold_py_min_le (l : list Q) (m : Q) :
  fold_left py_min l m <= m /\ forall x, In x l -> fold_left py_min l m <= x.
Proof.
  revert m. induction l as [|y l IH]; intro m; simpl.
  - split; [apply Qle_refl | intros x []].
  - destruct (IH (py_min m y)) as [Hm Hl]. split.
    + eapply Qle_trans; [exact Hm | apply py_min_l].
    + intros x [<- | Hx]; [|auto].
      eapply Qle_trans; [exact Hm | apply py_min_r].
Qed.

Lemma fold_py_min_In (l : list Q) (m : Q) :
  fold_left py_min l m = m \/ In (fold_left py_min l m) l.
Proof.
  revert m. induction l as [|y l IH]; intro m; simpl; [now left|].
  destruct (IH (py_min m y)) as [E | Hin]; [|now right; right].
  rewrite E. unfold py_min. destruct (Qlt_bool y m); [right; now left | now left].
Qed.

(** [min(l, default=d)] is [d] on the empty list and a least element of
    [l] otherwise. *)
Lemma py_min_default_spec (l : list Q) (d : Q) :
  (l = [] -> py_min_default l d = d) /\
  (l <> [] ->
   In (py_min_default l d) l /\ forall x, In x l -> py_min_default l d <= x).
Proof.
  destruct l as [|x l]; simpl; split; try congruence; intros _.
  destruct (fold_py_min_le l x) as [Hx Hl]. split.
  - destruct (fold_py_min_In l x) as [-> | Hin]; [now left | now right].
  - intros y [<- | Hy]; auto.
Qed.

(** Summing from the left, as [sum] does, is the sum of the list. *)
Lemma fold_left_Qplus (l : list Q) (a : Q) :
  fold_left Qplus l a == a + fold_right Qplus 0 l.
Proof.
  revert a. induction l as [|x l IH]; intro a; simpl.
  - ring.
  - rewrite IH. ring.
Qed.

Lemma py_sum_fold_right (l : list Q) : py_sum l == fold_right Qplus 0 l.
Proof. unfold py_sum. rewrite fold_left_Qplus. ring. Qed.

(** ** The [Bot] computations, step by step *)

Lemma bind_run {A B} (m : Bot A) (k : A -> Bot B) (g : globals) :
  bind m k g =
  (value (k (value (m g)) (final (m g))),
   final (k (value (m g)) (final (m g))),
   calls (m g) ++ calls (k (value (m g)) (final (m g)))).
Proof.
  unfold bind, value, final, calls.
  destruct (m g) as [[a g1] c1]; simpl.
  destruct (k a g1) as [[b g2] c2]; reflexivity.
Qed.

Lemma cancel_each_run (exchange : Exchange) (ids : list order_id) (g : globals) :
  cancel_each exchange ids g = (tt, g, map CancelOrder ids).
Proof.
  induction ids as [|id ids IH]; simpl; [reflexivity|].
  unfold bind, emit; simpl.
  destruct (cancel_order exchange id); simpl; rewrite IH; reflexivity.
Qed.

Lemma cancel_active_orders_run (exchange : Exchange) (g : globals) :
  cancel_active_orders exchange g =
  (tt, {| remaining_tokens := remaining_tokens g; active_orders := [] |},
   map CancelOrder (active_orders g)).
Proof.
  unfold cancel_active_orders. rewrite bind_run. simpl.
  rewrite bind_run, cancel_each_run. simpl. rewrite app_nil_r. reflexivity.
Qed.

Lemma get_dynamic_trade_amount_run (book : order_book) (g : globals) :
  get_dynamic_trade_amount book g =
  (dynamic_amount (remaining_tokens g) book, g, []).
Proof. reflexivity. Qed.

Lemma place_sell_order_run (exchange : Exchange) (p a : Q) (g : globals) :
  place_sell_order exchange p a g =
  (tt,
   {| remaining_tokens := remaining_tokens g;
      active_orders :=
        active_orders g ++ placed (create_limit_sell_order exchange a p) |},
   [LimitSell a p]).
Proof.
  unfold place_sell_order. rewrite bind_run. simpl.
  destruct (create_limit_sell_order exchange a p); simpl.
  - reflexivity.
  - rewrite app_nil_r. destruct g; reflexivity.
Qed.

Lemma place_buy_order_run (exchange : Exchange) (p a : Q) (g : globals) :
  place_buy_order exchange p a g =
  (tt,
   {| remaining_tokens := remaining_tokens g;
      active_orders :=
        active_orders g ++ placed (create_limit_buy_order exchange a p) |},
   [LimitBuy a p]).
Proof.
  unfold place_buy_order. rewrite bind_run. simpl.
  destruct (create_limit_buy_order exchange a p); simpl.
  - reflexivity.
  - rewrite app_nil_r. destruct g; reflexivity.
Qed.

(** ** One iteration, in closed form *)

Section Iteration.

Variable exchange : Exchange.
Variable current_price : Q.
Variable book : order_book.
Variable g : globals.

(** The globals and the calls of [trade]: the cancel requests for the
    listed ids, then at most one limit sell, at most one limit buy, and
    the sleep. *)
Lemma trade_run :
  trade exchange current_price book g =
  (tt,
   {| remaining_tokens :=
        remaining_after_sell current_price (remaining_tokens g) book;
      active_orders :=
        (if sell_trigger current_price
         then placed (create_limit_sell_order exchange
                        (dynamic_amount (remaining_tokens g) book)
                        (sell_price_of current_price))
         else []) ++
        (if buy_trigger current_price
         then placed (create_limit_buy_order exchange
                        (dynamic_amount
                           (remaining_after_sell current_price
                              (remaining_tokens g) book) book)
                        (buy_price_of current_price (get_mm_orders exchange)))
         else []) |},
   map CancelOrder (active_orders g) ++
   decisions current_price (remaining_tokens g) book (get_mm_orders exchange) ++
   [Sleep 5]).
Proof.
  unfold trade, decisions, remaining_after_sell, buy_price_of, sell_price_of,
    mm_buy_prices.
  destruct (sell_trigger current_price), (buy_trigger current_price);
    repeat (rewrite ?bind_run, ?cancel_active_orders_run,
              ?get_dynamic_trade_amount_run,
              ?place_sell_order_run, ?place_buy_order_run;
            cbn [value final calls fst snd app ret emit gets
                 set_remaining_tokens remaining_tokens active_orders]);
    rewrite ?app_nil_r; reflexivity.
Qed.

End Iteration.

(** An iteration whose fetches both went through, with a price that
    Python takes as true, is [trade]. *)
Lemma trading_cycle_trade (exchange : Exchange) (p : Q) (book : order_book)
    (g : globals) :
  get_price exchange = Some p ->
  get_order_book exchange = Some book ->
  Qeq_bool p 0 = false ->
  trading_cycle exchange g = trade exchange p book g.
Proof.
  intros Hp Hb Hz. unfold trading_cycle. rewrite Hp, Hb. simpl.
  rewrite Hz. reflexivity.
Qed.

(** Every other iteration only sleeps. *)
Lemma trading_cycle_skip (exchange : Exchange) (g : globals) :
  py_not_price (get_price exchange) = true \/ get_order_book exchange = None ->
  trading_cycle exchange g = (tt, g, [Sleep 5]).
Proof.
  intros [H | H]; unfold trading_cycle.
  - rewrite H. reflexivity.
  - rewrite H. destruct (py_not_price (get_price exchange)); [reflexivity|].
    destruct (get_price exchange); reflexivity.
Qed.

(** A price that triggers a sell or a buy is not zero. *)
Lemma sell_trigger_nonzero (p : Q) : sell_trigger p = true -> Qeq_bool p 0 = false.
Proof.
  unfold sell_trigger. rewrite Qle_bool_iff. intro H.
  apply not_true_iff_false. rewrite Qeq_bool_iff. intro E. rewrite E in H.
  revert H. unfold MIN_SELL_PRICE. apply Qlt_not_le. reflexivity.
Qed.

Lemma buy_trigger_nonzero (p : Q) : buy_trigger p = true -> Qeq_bool p 0 = false.
Proof.
  unfold buy_trigger. rewrite andb_true_iff, Qle_bool_iff. intros [_ H].
  apply not_true_iff_false. rewrite Qeq_bool_iff. intro E. rewrite E in H.
  revert H. unfold FLOOR_PRICE. apply Qlt_not_le. reflexivity.
Qed.

Lemma trading_cycle_cases (exchange : Exchange) (g : globals) :
  (trading_cycle exchange g = (tt, g, [Sleep 5]) /\
   (py_not_price (get_price exchange) = true \/
    get_order_book exchange = None)) \/
  (exists p book,
     get_price exchange = Some p /\
     get_order_book exchange = Some book /\
     Qeq_bool p 0 = false /\
     trading_cycle exchange g = trade exchange p book g).
Proof.
  destruct (get_price exchange) as [p|] eqn:Hp.
  - destruct (Qeq_bool p 0) eqn:Hz.
    + left. split; [apply trading_cycle_skip|]; left; rewrite ?Hp; exact Hz.
    + destruct (get_order_book exchange) as [book|] eqn:Hb.
      * right. exists p, book. repeat split; try assumption.
        now apply trading_cycle_trade.
      * left. split; [apply trading_cycle_skip|]; now right.
  - left. split; [apply trading_cycle_skip|]; left; rewrite ?Hp; reflexivity.
Qed.

Lemma not_In_cancels (c : call) (ids : list order_id) :
  is_order c = true -> ~ In c (map CancelOrder ids).
Proof.
  intros Hc Hin. apply in_map_iff in Hin. destruct Hin as [id [<- _]].
  discriminate Hc.
Qed.

(** The limit sells and limit buys among the calls of an iteration. *)
Lemma sell_call_inv (exchange : Exchange) (g : globals) (a pr : Q) :
  In (LimitSell a pr) (calls (trading_cycle exchange g)) ->
  exists p book,
    get_price exchange = Some p /\
    get_order_book exchange = Some book /\
    sell_trigger p = true /\
    a = dynamic_amount (remaining_tokens g) book /\
    pr = sell_price_of p.
Proof.
  destruct (trading_cycle_cases exchange g)
    as [[-> _] | (p & book & Hp & Hb & Hz & ->)].
  - simpl. intros [H | []]. discriminate H.
  - rewrite trade_run. unfold calls, snd, decisions. rewrite !in_app_iff.
    intros [H | [[H | H] | H]].
    + now apply not_In_cancels in H.
    + exists p, book. destruct (sell_trigger p); [|destruct H].
      destruct H as [H | []]. inversion H. now repeat split.
    + destruct (buy_trigger p); [|destruct H].
      destruct H as [H | []]. discriminate H.
    + destruct H as [H | []]. discriminate H.
Qed.

Lemma buy_call_inv (exchange : Exchange) (g : globals) (a pr : Q) :
  In (LimitBuy a pr) (calls (trading_cycle exchange g)) ->
  exists p book,
    get_price exchange = Some p /\
    get_order_book exchange = Some book /\
    buy_trigger p = true /\
    a = dynamic_amount (remaining_after_sell p (remaining_tokens g) book) book /\
    pr = buy_price_of p (get_mm_orders exchange).
Proof.
  destruct (trading_cycle_cases exchange g)
    as [[-> _] | (p & book & Hp & Hb & Hz & ->)].
  - simpl. intros [H | []]. discriminate H.
  - rewrite trade_run. unfold calls, snd, decisions. rewrite !in_app_iff.
    intros [H | [[H | H] | H]].
    + now apply not_In_cancels in H.
    + destruct (sell_trigger p); [|destruct H].
      destruct H as [H | []]. discriminate H.
    + exists p, book. destruct (buy_trigger p); [|destruct H].
      destruct H as [H | []]. inversion H. now repeat split.
    + destruct H as [H | []]. discriminate H.
Qed.

Lemma sell_call_intro (exchange : Exchange) (g : globals) (p : Q)
    (book : order_book) :
  get_price exchange = Some p ->
  get_order_book exchange = Some book ->
  sell_trigger p = true ->
  In (LimitSell (dynamic_amount (remaining_tokens g) book) (sell_price_of p))
     (calls (trading_cycle exchange g)).
Proof.
  intros Hp Hb Hs.
  rewrite (trading_cycle_trade exchange p book g Hp Hb (sell_trigger_nonzero p Hs)).
  rewrite trade_run. unfold calls, snd, decisions. rewrite Hs.
  apply in_or_app. right. now left.
Qed.

Lemma buy_call_intro (exchange : Exchange) (g : globals) (p : Q)
    (book : order_book) :
  get_price exchange = Some p ->
  get_order_book exchange = Some book ->
  buy_trigger p = true ->
  In (LimitBuy
        (dynamic_amount (remaining_after_sell p (remaining_tokens g) book) book)
        (buy_price_of p (get_mm_orders exchange)))
     (calls (trading_cycle exchange g)).
Proof.
  intros Hp Hb Hs.
  rewrite (trading_cycle_trade exchange p book g Hp Hb (buy_trigger_nonzero p Hs)).
  rewrite trade_run. unfold calls, snd, decisions. rewrite Hs.
  apply in_or_app. right. apply in_or_app. left.
  apply in_or_app. right. now left.
Qed.

(** ** The claims *)

(** C1.  In an iteration of the loop that starts with a positive counter
    and in which the price and the order book are both fetched, a limit
    sell order is submitted if and only if the current price is at least
    [MIN_SELL_PRICE], that is 0.30. *)
Theorem sell_iff_min_sell_price (exchange : Exchange) (g : globals) (p : Q)
    (book : order_book) :
  0 < remaining_tokens g ->
  get_price exchange = Some p ->
  get_order_book exchange = Some book ->
  ((exists amount price,
      In (LimitSell amount price) (calls (trading_cycle exchange g)))
   <-> 0.30 <= p) /\
  MIN_SELL_PRICE = 0.30.
Proof.
  intros _ Hp Hb. split; [|reflexivity]. split.
  - intros (a & pr & Hin). apply sell_call_inv in Hin.
    destruct Hin as (p' & _ & Hp' & _ & Hs & _).
    rewrite Hp in Hp'. injection Hp' as <-.
    now apply Qle_bool_iff in Hs.
  - intro Hle. do 2 eexists. eapply sell_call_intro; eauto.
    now apply Qle_bool_iff.
Qed.

Lemma sell_iff_min_sell_price_witness :
  ((exists amount price,
      In (LimitSell amount price)
         (calls (trading_cycle (Sample.calm 0.35) initial)))
   <-> 0.30 <= 0.35) /\
  MIN_SELL_PRICE = 0.30.
Proof.
  apply (sell_iff_min_sell_price (Sample.calm 0.35) initial 0.35 Sample.book);
    reflexivity.
Defined.

Lemma dynamic_amount_spec (remaining : Q) (book : order_book) :
  dynamic_amount remaining book == spec_trade_amount remaining book.
Proof.
  unfold dynamic_amount, spec_trade_amount, best_five_bid_amounts.
  rewrite py_min_Qmin, py_max_Qmax.
  apply Q.min_compat; [reflexivity|].
  apply Q.max_compat; [reflexivity|].
  rewrite py_sum_fold_right. apply Qmult_comm.
Qed.

(** C2.  For every order book and every value of the counter,
    [get_dynamic_trade_amount] returns
    min(remaining_tokens, max(BASE_TRADE_AMOUNT, 0.5 * sum of the amounts
    of the best five bid levels)), changes no global and makes no call;
    and two books with the same first five bid levels give, for the same
    counter, the same result. *)
Theorem get_dynamic_trade_amount_spec (book : order_book) (g : globals) :
  value (get_dynamic_trade_amount book g)
    == spec_trade_amount (remaining_tokens g) book /\
  final (get_dynamic_trade_amount book g) = g /\
  calls (get_dynamic_trade_amount book g) = [] /\
  forall (book' : order_book) (g' : globals),
    firstn 5 (bids book') = firstn 5 (bids book) ->
    remaining_tokens g' = remaining_tokens g ->
    value (get_dynamic_trade_amount book' g')
    = value (get_dynamic_trade_amount book g).
Proof.
  rewrite get_dynamic_trade_amount_run. cbn [value final calls fst snd].
  repeat split.
  - apply dynamic_amount_spec.
  - intros book' g' Hb Hr. rewrite get_dynamic_trade_amount_run.
    cbn [value fst]. unfold dynamic_amount. rewrite Hb, Hr. reflexivity.
Qed.

Lemma get_dynamic_trade_amount_spec_witness :
  value (get_dynamic_trade_amount
           {| bids := firstn 5 (bids Sample.book); asks := [] |}
           {| remaining_tokens := 5000000; active_orders := ["s1"%string] |})
  = value (get_dynamic_trade_amount Sample.book initial).
Proof.
  apply (get_dynamic_trade_amount_spec Sample.book initial); reflexivity.
Defined.

(** C3.  Every limit sell of an iteration is priced at
    max(current_price * (1 - DEPTH_PERCENTAGE), MIN_SELL_PRICE), hence
    never below [MIN_SELL_PRICE], that is 0.30. *)
Theorem sell_price_floor (exchange : Exchange) (g : globals) (amount pr : Q) :
  In (LimitSell amount pr) (calls (trading_cycle exchange g)) ->
  exists current_price,
    get_price exchange = Some current_price /\
    pr = Qmax (current_price * (1 - DEPTH_PERCENTAGE)) MIN_SELL_PRICE /\
    MIN_SELL_PRICE <= pr /\
    0.30 <= pr.
Proof.
  intro Hin. apply sell_call_inv in Hin.
  destruct Hin as (p & _ & Hp & _ & _ & _ & ->).
  exists p. unfold sell_price_of. rewrite py_max_Qmax.
  repeat split; try assumption; apply Q.le_max_r.
Qed.

Lemma sell_price_floor_witness :
  exists current_price,
    get_price (Sample.calm 0.301) = Some current_price /\
    0.30 = Qmax (current_price * (1 - DEPTH_PERCENTAGE)) MIN_SELL_PRICE /\
    MIN_SELL_PRICE <= 0.30 /\
    0.30 <= 0.30.
Proof.
  apply (sell_price_floor (Sample.calm 0.301) initial 750000.0 0.30).
  vm_compute. left. reflexivity.
Defined.

(** C4.  In an iteration in which the price and the order book are both
    fetched, a limit buy order is submitted if and only if the current
    price is strictly above [LAUNCH_PRICE] (0.12) and at least
    [FLOOR_PRICE] (0.24); with these constants the condition is the same
    as the single test current price >= 0.24. *)
Theorem buy_iff_floor_price (exchange : Exchange) (g : globals) (p : Q)
    (book : order_book) :
  get_price exchange = Some p ->
  get_order_book exchange = Some book ->
  ((exists amount price,
      In (LimitBuy amount price) (calls (trading_cycle exchange g)))
   <-> LAUNCH_PRICE < p /\ FLOOR_PRICE <= p) /\
  (LAUNCH_PRICE < p /\ FLOOR_PRICE <= p <-> 0.24 <= p) /\
  LAUNCH_PRICE = 0.12 /\ FLOOR_PRICE = 0.24.
Proof.
  intros Hp Hb. repeat split; try tauto.
  - destruct H as (a & pr & Hin). apply buy_call_inv in Hin.
    destruct Hin as (p' & _ & Hp' & _ & Ht & _).
    rewrite Hp in Hp'. injection Hp' as <-.
    apply andb_true_iff in Ht. now apply Qlt_bool_iff.
  - destruct H as (a & pr & Hin). apply buy_call_inv in Hin.
    destruct Hin as (p' & _ & Hp' & _ & Ht & _).
    rewrite Hp in Hp'. injection Hp' as <-.
    apply andb_true_iff in Ht. now apply Qle_bool_iff.
  - intros [Hl Hf].
    do 2 eexists. apply (buy_call_intro exchange g p book Hp Hb).
    unfold buy_trigger. apply andb_true_iff.
    split; [now apply Qlt_bool_iff | now apply Qle_bool_iff].
  - eapply Qlt_le_trans; [|exact H]. reflexivity.
Qed.

Lemma buy_iff_floor_price_witness :
  ((exists amount price,
      In (LimitBuy amount price)
         (calls (trading_cycle (Sample.calm 0.24) initial)))
   <-> LAUNCH_PRICE < 0.24 /\ FLOOR_PRICE <= 0.24) /\
  (LAUNCH_PRICE < 0.24 /\ FLOOR_PRICE <= 0.24 <-> 0.24 <= 0.24) /\
  LAUNCH_PRICE = 0.12 /\ FLOOR_PRICE = 0.24.
Proof.
  apply (buy_iff_floor_price (Sample.calm 0.24) initial 0.24 Sample.book);
    reflexivity.
Defined.

(** The buy prices [min] ranges over are the prices of the open orders
    whose user is the market maker and whose side is buy. *)
Lemma mm_buy_prices_In (exchange : Exchange) (x : Q) :
  In x (mm_buy_prices (get_mm_orders exchange)) <->
  exists all_orders o,
    fetch_open_orders exchange = Returned all_orders /\
    In o all_orders /\ user o = MM_UID /\ side o = buy /\ price o = x.
Proof.
  unfold mm_buy_prices, get_mm_orders. rewrite in_map_iff. split.
  - intros (o & <- & Hin). apply filter_In in Hin. destruct Hin as [Hin Hside].
    destruct (fetch_open_orders exchange) as [all_orders|]; [|destruct Hin].
    apply filter_In in Hin. destruct Hin as [Hin Huser].
    exists all_orders, o. repeat split; trivial.
    + now apply String.eqb_eq.
    + destruct (side o); [reflexivity | discriminate Hside].
  - intros (all_orders & o & -> & Hin & Hu & Hs & <-).
    exists o. split; [reflexivity|]. apply filter_In. split.
    + apply filter_In. split; [assumption|]. now apply String.eqb_eq.
    + rewrite Hs. reflexivity.
Qed.

Lemma mm_open_buy_price_In (exchange : Exchange) (x : Q) :
  mm_open_buy_price exchange x <->
  In x (mm_buy_prices (get_mm_orders exchange)).
Proof. symmetry. apply mm_buy_prices_In. Qed.

(** C5.  Every limit buy of an iteration is priced at
    max(current_price * (1 - DEPTH_PERCENTAGE), m), where m is the least
    price among the open orders the exchange returned whose user is the
    market maker and whose side is buy, or
    current_price * (1 - DEPTH_PERCENTAGE) when there is no such order;
    hence the buy price is at least 98% of the current price. *)
Theorem buy_price_spec (exchange : Exchange) (g : globals) (amount pr : Q) :
  In (LimitBuy amount pr) (calls (trading_cycle exchange g)) ->
  exists current_price m,
    get_price exchange = Some current_price /\
    ((forall x, ~ mm_open_buy_price exchange x) ->
     m = current_price * (1 - DEPTH_PERCENTAGE)) /\
    ((exists x, mm_open_buy_price exchange x) ->
     mm_open_buy_price exchange m /\
     forall x, mm_open_buy_price exchange x -> m <= x) /\
    pr = Qmax (current_price * (1 - DEPTH_PERCENTAGE)) m /\
    0.98 * current_price <= pr.
Proof.
  intro Hin. apply buy_call_inv in Hin.
  destruct Hin as (p & _ & Hp & _ & _ & _ & ->).
  exists p,
    (py_min_default (mm_buy_prices (get_mm_orders exchange))
       (p * (1 - DEPTH_PERCENTAGE))).
  destruct (py_min_default_spec (mm_buy_prices (get_mm_orders exchange))
              (p * (1 - DEPTH_PERCENTAGE))) as [Hnil Hcons].
  unfold buy_price_of. rewrite py_max_Qmax.
  split; [exact Hp|]. split; [|split; [|split]].
  - intro Hnone. apply Hnil.
    destruct (mm_buy_prices (get_mm_orders exchange)) as [|x l] eqn:E;
      [reflexivity|].
    exfalso. apply (Hnone x). apply mm_open_buy_price_In. rewrite E. now left.
  - intros [x Hx]. apply mm_open_buy_price_In in Hx.
    assert (Hne : mm_buy_prices (get_mm_orders exchange) <> [])
      by (intro E; rewrite E in Hx; destruct Hx).
    destruct (Hcons Hne) as [Hm Hleast]. split.
    + now apply mm_open_buy_price_In.
    + intros y Hy. apply Hleast. now apply mm_open_buy_price_In.
  - reflexivity.
  - eapply Qle_trans; [|apply Q.le_max_l].
    unfold DEPTH_PERCENTAGE. lra.
Qed.

Lemma buy_price_spec_witness :
  exists current_price m,
    get_price mm_bids_high = Some current_price /\
    ((forall x, ~ mm_open_buy_price mm_bids_high x) ->
     m = current_price * (1 - DEPTH_PERCENTAGE)) /\
    ((exists x, mm_open_buy_price mm_bids_high x) ->
     mm_open_buy_price mm_bids_high m /\
     forall x, mm_open_buy_price mm_bids_high x -> m <= x) /\
    0.3465 = Qmax (current_price * (1 - DEPTH_PERCENTAGE)) m /\
    0.98 * current_price <= 0.3465.
Proof.
  apply (buy_price_spec mm_bids_high initial 750000.0 0.3465).
  vm_compute. right. left. reflexivity.
Defined.

(** C6.  An iteration in which [get_price] or [get_order_book] returns
    [None] submits no order, requests no cancellation, leaves
    [remaining_tokens] and [active_orders] as they were, and does nothing
    but sleep 5 seconds. *)
Theorem fetch_failure_only_sleeps (exchange : Exchange) (g : globals) :
  get_price exchange = None \/ get_order_book exchange = None ->
  final (trading_cycle exchange g) = g /\
  calls (trading_cycle exchange g) = [Sleep 5] /\
  orders_submitted (calls (trading_cycle exchange g)) = [] /\
  cancel_attempts (calls (trading_cycle exchange g)) = [].
Proof.
  intro H. rewrite trading_cycle_skip.
  - repeat split.
  - destruct H as [-> | ->]; [left; reflexivity | now right].
Qed.

Lemma fetch_failure_only_sleeps_witness :
  final (trading_cycle (Sample.no_book 0.35) initial) = initial /\
  calls (trading_cycle (Sample.no_book 0.35) initial) = [Sleep 5] /\
  orders_submitted (calls (trading_cycle (Sample.no_book 0.35) initial)) = [] /\
  cancel_attempts (calls (trading_cycle (Sample.no_book 0.35) initial)) = [].
Proof.
  apply (fetch_failure_only_sleeps (Sample.no_book 0.35) initial).
  right. reflexivity.
Defined.

Lemma orders_submitted_cancels (ids : list order_id) (l : list call) :
  orders_submitted (map CancelOrder ids ++ l) = orders_submitted l.
Proof. induction ids as [|id ids IH]; simpl; auto. Qed.

Lemma orders_submitted_trade (exchange : Exchange) (p : Q)
    (book : order_book) (g : globals) :
  orders_submitted (calls (trade exchange p book g)) =
  decisions p (remaining_tokens g) book (get_mm_orders exchange).
Proof.
  rewrite trade_run. unfold calls, snd, decisions, remaining_after_sell.
  rewrite orders_submitted_cancels.
  destruct (sell_trigger p), (buy_trigger p); reflexivity.
Qed.

Lemma orders_submitted_cycle (exchange : Exchange) (g : globals) :
  orders_submitted (calls (trading_cycle exchange g)) =
  match get_price exchange, get_order_book exchange with
  | Some p, Some book =>
      if Qeq_bool p 0 then []
      else decisions p (remaining_tokens g) book (get_mm_orders exchange)
  | _, _ => []
  end.
Proof.
  destruct (trading_cycle_cases exchange g)
    as [[-> H] | (p & book & -> & -> & -> & ->)].
  - destruct (get_price exchange) as [p|]; [|reflexivity].
    destruct H as [H | ->];
      [simpl in H; rewrite H; destruct (get_order_book exchange)|];
      reflexivity.
  - apply orders_submitted_trade.
Qed.

Lemma remaining_tokens_cycle (exchange : Exchange) (g : globals) :
  remaining_tokens (final (trading_cycle exchange g)) =
  match get_price exchange, get_order_book exchange with
  | Some p, Some book =>
      if Qeq_bool p 0 then remaining_tokens g
      else if sell_trigger p
           then remaining_tokens g - dynamic_amount (remaining_tokens g) book
           else remaining_tokens g
  | _, _ => remaining_tokens g
  end.
Proof.
  destruct (trading_cycle_cases exchange g)
    as [[-> H] | (p & book & -> & -> & -> & ->)].
  - destruct (get_price exchange) as [p|]; [|reflexivity].
    destruct H as [H | ->];
      [simpl in H; rewrite H; destruct (get_order_book exchange)|];
      reflexivity.
  - rewrite trade_run. reflexivity.
Qed.

(** C7.  Two iterations that see the same current price, the same
    counter, the same order book and the same market-maker orders submit
    the same orders (the same sells and buys, each with the same size and
    price) and leave the same counter, whatever their lists of active
    orders are and whatever the exchange answers to the cancel requests
    and to the orders. *)
Theorem decisions_deterministic (exchange1 exchange2 : Exchange)
    (g1 g2 : globals) :
  get_price exchange1 = get_price exchange2 ->
  get_order_book exchange1 = get_order_book exchange2 ->
  get_mm_orders exchange1 = get_mm_orders exchange2 ->
  remaining_tokens g1 = remaining_tokens g2 ->
  orders_submitted (calls (trading_cycle exchange1 g1))
  = orders_submitted (calls (trading_cycle exchange2 g2)) /\
  remaining_tokens (final (trading_cycle exchange1 g1))
  = remaining_tokens (final (trading_cycle exchange2 g2)).
Proof.
  intros Hp Hb Hm Hr.
  rewrite !orders_submitted_cycle, !remaining_tokens_cycle, Hp, Hb, Hm, Hr.
  split; reflexivity.
Qed.

Lemma decisions_deterministic_witness :
  orders_submitted (calls (trading_cycle (Sample.calm 0.35) initial))
  = orders_submitted
      (calls (trading_cycle
                {| fetch_ticker := Returned {| last := 0.35 |};
                   fetch_order_book := Returned Sample.book;
                   fetch_open_orders := Returned Sample.mm;
                   cancel_order := fun _ => Raised;
                   create_limit_buy_order := fun _ _ => Raised;
                   create_limit_sell_order := fun _ _ => Returned "s9"%string |}
                {| remaining_tokens := TOTAL_TOKENS;
                   active_orders := ["s1"; "b1"]%string |})) /\
  remaining_tokens (final (trading_cycle (Sample.calm 0.35) initial))
  = remaining_tokens
      (final (trading_cycle
                {| fetch_ticker := Returned {| last := 0.35 |};
                   fetch_order_book := Returned Sample.book;
                   fetch_open_orders := Returned Sample.mm;
                   cancel_order := fun _ => Raised;
                   create_limit_buy_order := fun _ _ => Raised;
                   create_limit_sell_order := fun _ _ => Returned "s9"%string |}
                {| remaining_tokens := TOTAL_TOKENS;
                   active_orders := ["s1"; "b1"]%string |})).
Proof.
  apply decisions_deterministic; reflexivity.
Defined.

(** The trade size lies between 0 and the counter. *)
Lemma dynamic_amount_bounds (remaining : Q) (book : order_book) :
  0 <= remaining ->
  0 <= dynamic_amount remaining book /\
  dynamic_amount remaining book <= remaining.
Proof.
  intro H. unfold dynamic_amount. rewrite py_min_Qmin, py_max_Qmax. split.
  - apply Q.min_glb; [exact H|].
    eapply Qle_trans; [|apply Q.le_max_l]. discriminate.
  - apply Q.le_min_l.
Qed.

(** An iteration never raises the counter and never takes it below 0. *)
Lemma cycle_remaining_bounds (exchange : Exchange) (g : globals) :
  0 <= remaining_tokens g ->
  0 <= remaining_tokens (final (trading_cycle exchange g)) /\
  remaining_tokens (final (trading_cycle exchange g)) <= remaining_tokens g.
Proof.
  intro H. rewrite remaining_tokens_cycle.
  assert (Hsame : 0 <= remaining_tokens g /\ remaining_tokens g <= remaining_tokens g)
    by (split; [exact H | apply Qle_refl]).
  destruct (get_price exchange) as [p|]; [|exact Hsame].
  destruct (get_order_book exchange) as [book|]; [|exact Hsame].
  destruct (Qeq_bool p 0); [exact Hsame|].
  destruct (sell_trigger p); [|exact Hsame].
  destruct (dynamic_amount_bounds (remaining_tokens g) book H) as [H0 H1].
  split; lra.
Qed.

Lemma reachable_bounds (g : globals) :
  reachable g ->
  0 <= remaining_tokens g /\ remaining_tokens g <= TOTAL_TOKENS.
Proof.
  induction 1 as [|exchange g Hg [IH0 IH1] Hpos].
  - split; [discriminate | apply Qle_refl].
  - destruct (cycle_remaining_bounds exchange g IH0) as [H0 H1].
    split; [exact H0 | eapply Qle_trans; eassumption].
Qed.

(** C8.  In every reachable state of the trading loop
    0 <= remaining_tokens <= TOTAL_TOKENS: the counter starts at
    [TOTAL_TOKENS], no iteration raises it, and the amount
    [get_dynamic_trade_amount] returns, by which a sell lowers it, is at
    most the counter. *)
Theorem remaining_tokens_bounds (g : globals) :
  reachable g ->
  (0 <= remaining_tokens g /\ remaining_tokens g <= TOTAL_TOKENS) /\
  remaining_tokens initial = TOTAL_TOKENS /\
  (forall exchange,
     remaining_tokens (final (trading_cycle exchange g)) <= remaining_tokens g) /\
  (forall book,
     value (get_dynamic_trade_amount book g) <= remaining_tokens g).
Proof.
  intro Hg. destruct (reachable_bounds g Hg) as [H0 H1].
  repeat split; trivial.
  - intro exchange. now apply cycle_remaining_bounds.
  - intro book. rewrite get_dynamic_trade_amount_run.
    now apply dynamic_amount_bounds.
Qed.

Lemma remaining_tokens_bounds_witness :
  0 <= remaining_tokens after_first_cycle /\
  remaining_tokens after_first_cycle <= TOTAL_TOKENS.
Proof.
  apply (remaining_tokens_bounds after_first_cycle).
  apply reachable_cycle; [apply reachable_initial | reflexivity].
Defined.

(** The globals the main loop stops in are reachable. *)
Lemma main_loop_reachable (market : list Exchange) (g : globals) :
  reachable g -> reachable (final (main_loop market g)).
Proof.
  revert g. induction market as [|exchange later IH]; intros g Hg; simpl.
  - exact Hg.
  - rewrite bind_run. cbn [gets value final fst snd].
    destruct (Qlt_bool 0 (remaining_tokens g)) eqn:Hpos; [|exact Hg].
    rewrite bind_run. cbn [final fst snd]. apply IH.
    apply reachable_cycle; [exact Hg | now apply Qlt_bool_iff].
Qed.

Corollary main_loop_bounds (market : list Exchange) :
  0 <= remaining_tokens (final (main_loop market initial)) /\
  remaining_tokens (final (main_loop market initial)) <= TOTAL_TOKENS.
Proof.
  apply reachable_bounds, main_loop_reachable, reachable_initial.
Qed.

(** ** Cancellation of the active orders *)

Lemma cancel_attempts_cancels (ids : list order_id) (l : list call) :
  cancel_attempts (map CancelOrder ids ++ l) = ids ++ cancel_attempts l.
Proof. induction ids as [|id ids IH]; simpl; [|rewrite IH]; reflexivity. Qed.

Lemma cancel_attempts_trade (exchange : Exchange) (p : Q) (book : order_book)
    (g : globals) :
  cancel_attempts (calls (trade exchange p book g)) = active_orders g.
Proof.
  rewrite trade_run. unfold calls, snd, decisions.
  rewrite cancel_attempts_cancels.
  destruct (sell_trigger p), (buy_trigger p); simpl; apply app_nil_r.
Qed.

Lemma fetches_ok_cases (exchange : Exchange) :
  (fetches_ok exchange = false /\
   (py_not_price (get_price exchange) = true \/
    get_order_book exchange = None)) \/
  (fetches_ok exchange = true /\
   exists p book,
     get_price exchange = Some p /\ get_order_book exchange = Some book /\
     Qeq_bool p 0 = false).
Proof.
  unfold fetches_ok.
  destruct (get_price exchange) as [p|]; simpl; [|left; split; auto].
  destruct (Qeq_bool p 0) eqn:Hz; simpl; [left; split; auto|].
  destruct (get_order_book exchange) as [book|]; [|left; split; auto].
  right. split; [reflexivity|]. now exists p, book.
Qed.

Lemma main_loop_cons (exchange : Exchange) (later : list Exchange)
    (g : globals) :
  main_loop (exchange :: later) g =
  if Qlt_bool 0 (remaining_tokens g)
  then (tt,
        final (main_loop later (final (trading_cycle exchange g))),
        calls (trading_cycle exchange g) ++
        calls (main_loop later (final (trading_cycle exchange g))))
  else (tt, g, []).
Proof.
  simpl. rewrite bind_run. cbn [gets value final calls fst snd app].
  destruct (Qlt_bool 0 (remaining_tokens g)); [|reflexivity].
  rewrite bind_run.
  destruct (main_loop later (final (trading_cycle exchange g))) as [[[] g'] c].
  reflexivity.
Qed.

Lemma main_loop_stopped (market : list Exchange) (g : globals) :
  remaining_tokens g <= 0 -> main_loop market g = (tt, g, []).
Proof.
  intro H. destruct market as [|exchange later]; [reflexivity|].
  rewrite main_loop_cons.
  apply Qlt_bool_false_iff in H. rewrite H. reflexivity.
Qed.

(** Iterations stopped by a guard leave the globals alone and only
    sleep; the loop goes on with the answers that follow. *)
Lemma main_loop_skipped (skipped rest : list Exchange) (g : globals) :
  0 < remaining_tokens g ->
  (forall e, In e skipped -> fetches_ok e = false) ->
  final (main_loop (skipped ++ rest) g) = final (main_loop rest g) /\
  cancel_attempts (calls (main_loop (skipped ++ rest) g))
  = cancel_attempts (calls (main_loop rest g)).
Proof.
  intros Hpos. induction skipped as [|e skipped IH]; intro Hall;
    [split; reflexivity|].
  rewrite <- app_comm_cons, main_loop_cons.
  pose proof Hpos as Hb. apply Qlt_bool_iff in Hb. rewrite Hb.
  assert (Hskip : trading_cycle e g = (tt, g, [Sleep 5])).
  { apply trading_cycle_skip.
    destruct (fetches_ok_cases e) as [[_ H] | [H _]]; [exact H|].
    rewrite (Hall e (or_introl eq_refl)) in H. discriminate H. }
  rewrite Hskip. cbn [final calls fst snd app cancel_attempts].
  apply IH. intros e' He'. apply Hall. now right.
Qed.

(** C9, as it was put: the ids placed in one iteration are each sent a
    cancel request in the next iteration.  Here the next iteration cannot
    fetch the ticker, and the id [s1] placed before it gets no cancel
    request and stays listed. *)
Lemma placed_order_not_cancelled_in_next_cycle :
  In "s1"%string (active_orders after_first_cycle) /\
  0 < remaining_tokens after_first_cycle /\
  count_occ string_dec
    (cancel_attempts (calls (trading_cycle Sample.no_ticker after_first_cycle)))
    "s1"%string = 0%nat /\
  In "s1"%string
    (active_orders (final (trading_cycle Sample.no_ticker after_first_cycle))).
Proof.
  vm_compute. repeat split; auto.
Qed.

(** C9, amended.  After every call to [cancel_active_orders] the list
    [active_orders] is empty, whatever the cancel requests answered, and
    the call has made one cancel request per entry of the list, in list
    order.  An iteration that passes both guards of the loop body (the
    price fetched is neither [None] nor zero, the book is fetched) makes
    exactly these requests, and the list it leaves holds exactly the ids
    returned by its own order calls; an iteration stopped by a guard
    makes no request and keeps the list.  So, while the counter is
    positive, the ids listed get one cancel request each in the next
    iteration that passes both guards, however many stopped iterations
    come before it. *)
Theorem cancel_active_orders_spec (exchange : Exchange) (g : globals) :
  active_orders (final (cancel_active_orders exchange g)) = [] /\
  cancel_attempts (calls (cancel_active_orders exchange g)) = active_orders g /\
  (fetches_ok exchange = true ->
   cancel_attempts (calls (trading_cycle exchange g)) = active_orders g /\
   forall id,
     In id (active_orders (final (trading_cycle exchange g))) <->
     (exists a p,
        In (LimitSell a p) (calls (trading_cycle exchange g)) /\
        create_limit_sell_order exchange a p = Returned id) \/
     (exists a p,
        In (LimitBuy a p) (calls (trading_cycle exchange g)) /\
        create_limit_buy_order exchange a p = Returned id)) /\
  (fetches_ok exchange = false ->
   cancel_attempts (calls (trading_cycle exchange g)) = [] /\
   active_orders (final (trading_cycle exchange g)) = active_orders g) /\
  (0 < remaining_tokens g ->
   forall skipped,
     (forall e, In e skipped -> fetches_ok e = false) ->
     fetches_ok exchange = true ->
     cancel_attempts (calls (main_loop (skipped ++ [exchange]) g))
     = active_orders g).
Proof.
  rewrite cancel_active_orders_run. cbn [final calls fst snd active_orders].
  split; [reflexivity|]. split.
  { rewrite <- (app_nil_r (map CancelOrder (active_orders g))).
    rewrite cancel_attempts_cancels. apply app_nil_r. }
  rewrite <- and_assoc. split;
    [|intros Hpos skipped Hall Hok;
      destruct (main_loop_skipped skipped [exchange] g Hpos Hall) as [_ ->];
      rewrite main_loop_cons;
      apply Qlt_bool_iff in Hpos; rewrite Hpos; cbn [calls snd main_loop ret];
      rewrite app_nil_r;
      destruct (fetches_ok_cases exchange)
        as [[E _] | [_ (p & book & Hp & Hb & Hz)]];
      [rewrite E in Hok; discriminate Hok|];
      rewrite (trading_cycle_trade exchange p book g Hp Hb Hz);
      apply cancel_attempts_trade].
  destruct (fetches_ok_cases exchange)
    as [[-> Hskip] | [-> (p & book & Hp & Hb & Hz)]].
  - split; [discriminate|]. intros _.
    rewrite (trading_cycle_skip exchange g Hskip). split; reflexivity.
  - split; [|discriminate]. intros _.
    rewrite (trading_cycle_trade exchange p book g Hp Hb Hz).
    split; [apply cancel_attempts_trade|].
    intro id.
    assert (Hact : active_orders (final (trade exchange p book g)) =
                   (if sell_trigger p
                    then placed (create_limit_sell_order exchange
                                   (dynamic_amount (remaining_tokens g) book)
                                   (sell_price_of p))
                    else []) ++
                   (if buy_trigger p
                    then placed (create_limit_buy_order exchange
                                   (dynamic_amount
                                      (remaining_after_sell p
                                         (remaining_tokens g) book) book)
                                   (buy_price_of p (get_mm_orders exchange)))
                    else []))
      by (rewrite trade_run; reflexivity).
    rewrite Hact, in_app_iff.
    rewrite <- (trading_cycle_trade exchange p book g Hp Hb Hz).
    split.
    + intros [H | H]; [left | right].
      * destruct (sell_trigger p) eqn:Hs; [|destruct H].
        do 2 eexists. split; [now apply (sell_call_intro exchange g p book)|].
        destruct (create_limit_sell_order exchange _ _);
          [destruct H as [-> | []]; reflexivity | destruct H].
      * destruct (buy_trigger p) eqn:Ht; [|destruct H].
        do 2 eexists. split; [now apply (buy_call_intro exchange g p book)|].
        destruct (create_limit_buy_order exchange _ _);
          [destruct H as [-> | []]; reflexivity | destruct H].
    + intros [(a & q & Hin & Hr) | (a & q & Hin & Hr)]; [left | right].
      * apply sell_call_inv in Hin.
        destruct Hin as (p' & book' & Hp' & Hb' & Hs & -> & ->).
        rewrite Hp in Hp'. injection Hp' as <-.
        rewrite Hb in Hb'. injection Hb' as <-.
        rewrite Hs, Hr. now left.
      * apply buy_call_inv in Hin.
        destruct Hin as (p' & book' & Hp' & Hb' & Ht & -> & ->).
        rewrite Hp in Hp'. injection Hp' as <-.
        rewrite Hb in Hb'. injection Hb' as <-.
        rewrite Ht, Hr. now left.
Qed.

Lemma cancel_active_orders_spec_witness :
  cancel_attempts
    (calls (trading_cycle (Sample.rejecting 0.31) after_first_cycle))
  = active_orders after_first_cycle /\
  (cancel_attempts (calls (trading_cycle Sample.no_ticker after_first_cycle)) = [] /\
   active_orders (final (trading_cycle Sample.no_ticker after_first_cycle))
   = active_orders after_first_cycle) /\
  cancel_attempts
    (calls (main_loop ([Sample.no_ticker; Sample.calm 0] ++ [Sample.rejecting 0.31])
              after_first_cycle))
  = active_orders after_first_cycle.
Proof.
  split; [|split].
  - apply (cancel_active_orders_spec (Sample.rejecting 0.31) after_first_cycle).
    reflexivity.
  - apply (cancel_active_orders_spec Sample.no_ticker after_first_cycle).
    reflexivity.
  - apply (cancel_active_orders_spec (Sample.rejecting 0.31) after_first_cycle).
    + reflexivity.
    + intros e [<- | [<- | []]]; reflexivity.
    + reflexivity.
Defined.

(** C10.  On every price the sell trigger and the buy trigger of the mock
    bot give the same answer as those of the trading bot: both test
    price >= MIN_SELL_PRICE, and price > LAUNCH_PRICE and
    price >= FLOOR_PRICE, with the constants 0.30, 0.24 and 0.12. *)
Theorem mock_triggers_agree (price : Q) :
  MockBot.sell_trigger price = sell_trigger price /\
  MockBot.buy_trigger price = buy_trigger price /\
  (MockBot.MIN_SELL_PRICE, MockBot.FLOOR_PRICE, MockBot.LAUNCH_PRICE)
  = (0.30, 0.24, 0.12) /\
  (MIN_SELL_PRICE, FLOOR_PRICE, LAUNCH_PRICE) = (0.30, 0.24, 0.12) /\
  (sell_trigger price = true <-> 0.30 <= price) /\
  (buy_trigger price = true <-> 0.12 < price /\ 0.24 <= price).
Proof.
  repeat split.
  - now apply Qle_bool_iff.
  - now apply Qle_bool_iff.
  - apply andb_true_iff in H. now apply Qlt_bool_iff.
  - apply andb_true_iff in H. now apply Qle_bool_iff.
  - intros [Hl Hf]. apply andb_true_iff.
    split; [now apply Qlt_bool_iff | now apply Qle_bool_iff].
Qed.

(** * Further properties of gmrt_sell_bot.py *)

(** A price that triggers a sell also triggers a buy. *)
Lemma sell_trigger_buy_trigger (p : Q) :
  sell_trigger p = true -> buy_trigger p = true.
Proof.
  unfold sell_trigger, buy_trigger, MIN_SELL_PRICE, LAUNCH_PRICE, FLOOR_PRICE.
  rewrite andb_true_iff, Qlt_bool_iff, !Qle_bool_iff. intro H. split; lra.
Qed.

Lemma sell_trigger_positive (p : Q) : sell_trigger p = true -> 0 < p.
Proof.
  unfold sell_trigger, MIN_SELL_PRICE. rewrite Qle_bool_iff. intro H. lra.
Qed.

(** X1.  The calls of an iteration come in a fixed order.  An iteration
    that passes both guards of the loop body makes first one cancel
    request per id of [active_orders], in list order, then at most one
    limit sell, then at most one limit buy, and last a single sleep of 5
    seconds; an iteration stopped by a guard only sleeps 5 seconds. *)
Theorem cycle_call_order (exchange : Exchange) (g : globals) :
  (fetches_ok exchange = false ->
   calls (trading_cycle exchange g) = [Sleep 5]) /\
  (fetches_ok exchange = true ->
   exists sells buys,
     calls (trading_cycle exchange g) =
       map CancelOrder (active_orders g) ++ sells ++ buys ++ [Sleep 5] /\
     (List.length sells <= 1)%nat /\ (List.length buys <= 1)%nat /\
     forallb is_sell sells = true /\ forallb is_buy buys = true).
Proof.
  destruct (fetches_ok_cases exchange)
    as [[-> Hskip] | [-> (p & book & Hp & Hb & Hz)]].
  - split; [|discriminate]. intros _.
    rewrite (trading_cycle_skip exchange g Hskip). reflexivity.
  - split; [discriminate|]. intros _.
    rewrite (trading_cycle_trade exchange p book g Hp Hb Hz), trade_run.
    unfold calls, snd, decisions.
    exists (if sell_trigger p
            then [LimitSell (dynamic_amount (remaining_tokens g) book)
                    (sell_price_of p)]
            else []),
           (if buy_trigger p
            then [LimitBuy
                    (dynamic_amount
                       (remaining_after_sell p (remaining_tokens g) book) book)
                    (buy_price_of p (get_mm_orders exchange))]
            else []).
    rewrite <- !app_assoc.
    destruct (sell_trigger p), (buy_trigger p); simpl; repeat split; lia.
Qed.

Lemma cycle_call_order_witness :
  calls (trading_cycle Sample.no_ticker after_first_cycle) = [Sleep 5] /\
  exists sells buys,
    calls (trading_cycle (Sample.calm 0.35) after_first_cycle) =
      map CancelOrder (active_orders after_first_cycle)
      ++ sells ++ buys ++ [Sleep 5] /\
    (List.length sells <= 1)%nat /\ (List.length buys <= 1)%nat /\
    forallb is_sell sells = true /\ forallb is_buy buys = true.
Proof.
  split.
  - apply (cycle_call_order Sample.no_ticker after_first_cycle). reflexivity.
  - apply (cycle_call_order (Sample.calm 0.35) after_first_cycle). reflexivity.
Defined.

(** X2.  An iteration that submits a limit sell also submits a limit
    buy; and when 98% of the current price is still at least
    [MIN_SELL_PRICE], that buy is priced at or above the bot's own sell. *)
Theorem sell_comes_with_buy (exchange : Exchange) (g : globals) (a1 p1 : Q) :
  In (LimitSell a1 p1) (calls (trading_cycle exchange g)) ->
  exists current_price a2 p2,
    get_price exchange = Some current_price /\
    In (LimitBuy a2 p2) (calls (trading_cycle exchange g)) /\
    (MIN_SELL_PRICE <= current_price * (1 - DEPTH_PERCENTAGE) -> p1 <= p2).
Proof.
  intro Hin. apply sell_call_inv in Hin.
  destruct Hin as (p & book & Hp & Hb & Hs & _ & ->).
  exists p. do 2 eexists. split; [exact Hp|]. split.
  - apply (buy_call_intro exchange g p book Hp Hb).
    now apply sell_trigger_buy_trigger.
  - intro Hd. unfold sell_price_of, buy_price_of. rewrite !py_max_Qmax.
    apply Q.max_lub; [apply Q.le_max_l|].
    eapply Qle_trans; [exact Hd | apply Q.le_max_l].
Qed.

Lemma sell_comes_with_buy_witness :
  exists current_price a2 p2,
    get_price (Sample.calm 0.35) = Some current_price /\
    In (LimitBuy a2 p2) (calls (trading_cycle (Sample.calm 0.35) initial)) /\
    (MIN_SELL_PRICE <= current_price * (1 - DEPTH_PERCENTAGE) -> 0.3430 <= p2).
Proof.
  apply (sell_comes_with_buy (Sample.calm 0.35) initial 750000.0 0.3430).
  vm_compute. left. reflexivity.
Defined.

(** X3.  The price of a limit sell lies between 98% of the current price
    and the current price: the bot never asks more than the last price. *)
Theorem sell_price_range (exchange : Exchange) (g : globals) (a pr : Q) :
  In (LimitSell a pr) (calls (trading_cycle exchange g)) ->
  exists current_price,
    get_price exchange = Some current_price /\
    0.98 * current_price <= pr /\ pr <= current_price.
Proof.
  intro Hin. apply sell_call_inv in Hin.
  destruct Hin as (p & book & Hp & _ & Hs & _ & ->).
  exists p. split; [exact Hp|].
  unfold sell_price_of. rewrite py_max_Qmax.
  pose proof (sell_trigger_positive p Hs) as Hpos.
  apply Qle_bool_iff in Hs. split.
  - eapply Qle_trans; [|apply Q.le_max_l]. unfold DEPTH_PERCENTAGE. lra.
  - apply Q.max_lub; [unfold DEPTH_PERCENTAGE; lra | exact Hs].
Qed.

Lemma sell_price_range_witness :
  exists current_price,
    get_price (Sample.calm 0.301) = Some current_price /\
    0.98 * current_price <= 0.30 /\ 0.30 <= current_price.
Proof.
  apply (sell_price_range (Sample.calm 0.301) initial 750000.0 0.30).
  vm_compute. left. reflexivity.
Defined.

(** The trade size is the counter itself or at least the base size. *)
Lemma dynamic_amount_cases (remaining : Q) (book : order_book) :
  (dynamic_amount remaining book = remaining /\
   remaining <= py_max BASE_TRADE_AMOUNT
                  (py_sum (map snd (firstn 5 (bids book))) * 0.5)) \/
  (BASE_TRADE_AMOUNT <= dynamic_amount remaining book /\
   dynamic_amount remaining book < remaining).
Proof.
  unfold dynamic_amount, py_min.
  destruct (Qlt_bool _ remaining) eqn:H.
  - right. split; [apply py_max_l | now apply Qlt_bool_iff].
  - left. split; [reflexivity | now apply Qlt_bool_false_iff].
Qed.

Lemma dynamic_amount_positive (remaining : Q) (book : order_book) :
  0 < remaining -> 0 < dynamic_amount remaining book.
Proof.
  intro H. destruct (dynamic_amount_cases remaining book) as [[-> _] | [Hb _]].
  - exact H.
  - eapply Qlt_le_trans; [|exact Hb]. reflexivity.
Qed.

(** X4.  In an iteration that starts with a positive counter, the size
    of the limit sell is positive and at most the counter, and it is the
    whole counter or at least [BASE_TRADE_AMOUNT]; the size of the limit
    buy of the same iteration is at most what the sell left, so the two
    sizes together never exceed the counter. *)
Theorem order_sizes (exchange : Exchange) (g : globals) (a pr : Q) :
  0 < remaining_tokens g ->
  In (LimitSell a pr) (calls (trading_cycle exchange g)) ->
  0 < a /\ a <= remaining_tokens g /\
  (a = remaining_tokens g \/ BASE_TRADE_AMOUNT <= a) /\
  forall a2 p2,
    In (LimitBuy a2 p2) (calls (trading_cycle exchange g)) ->
    0 <= a2 /\ a + a2 <= remaining_tokens g.
Proof.
  intros Hpos Hin. apply sell_call_inv in Hin.
  destruct Hin as (p & book & Hp & Hb & Hs & -> & _).
  assert (H0 : 0 <= remaining_tokens g) by now apply Qlt_le_weak.
  destruct (dynamic_amount_bounds (remaining_tokens g) book H0) as [_ Hle].
  repeat split.
  - now apply dynamic_amount_positive.
  - exact Hle.
  - destruct (dynamic_amount_cases (remaining_tokens g) book) as [[E _] | [B _]];
      [now left | now right].
  - apply buy_call_inv in H.
    destruct H as (p' & book' & Hp' & Hb' & _ & -> & _).
    rewrite Hp in Hp'. injection Hp' as <-.
    rewrite Hb in Hb'. injection Hb' as <-.
    unfold remaining_after_sell. rewrite Hs.
    apply dynamic_amount_bounds. lra.
  - apply buy_call_inv in H.
    destruct H as (p' & book' & Hp' & Hb' & _ & -> & _).
    rewrite Hp in Hp'. injection Hp' as <-.
    rewrite Hb in Hb'. injection Hb' as <-.
    unfold remaining_after_sell. rewrite Hs.
    assert (Hr : 0 <= remaining_tokens g
                      - dynamic_amount (remaining_tokens g) book) by lra.
    destruct (dynamic_amount_bounds _ book Hr) as [_ Hle2]. lra.
Qed.

Lemma order_sizes_witness :
  0 < 750000.0 /\ 750000.0 <= remaining_tokens initial /\
  (750000.0 = remaining_tokens initial \/ BASE_TRADE_AMOUNT <= 750000.0) /\
  forall a2 p2,
    In (LimitBuy a2 p2) (calls (trading_cycle (Sample.calm 0.35) initial)) ->
    0 <= a2 /\ 750000.0 + a2 <= remaining_tokens initial.
Proof.
  apply (order_sizes (Sample.calm 0.35) initial 750000.0 0.3430).
  - reflexivity.
  - vm_compute. left. reflexivity.
Defined.

(** X5.  The counter is lowered by the sell size whether or not the
    exchange took the order: when every limit sell raises, an iteration
    at a price of at least [MIN_SELL_PRICE] still requests the sell and
    still subtracts its size from [remaining_tokens], while only ids of
    buy orders reach [active_orders]. *)
Theorem counter_lowered_when_sell_raises (exchange : Exchange) (g : globals)
    (p : Q) (book : order_book) :
  get_price exchange = Some p ->
  get_order_book exchange = Some book ->
  MIN_SELL_PRICE <= p ->
  (forall a q, create_limit_sell_order exchange a q = Raised) ->
  (exists q,
     In (LimitSell (value (get_dynamic_trade_amount book g)) q)
        (calls (trading_cycle exchange g))) /\
  remaining_tokens (final (trading_cycle exchange g))
  = remaining_tokens g - value (get_dynamic_trade_amount book g) /\
  (0 < remaining_tokens g ->
   remaining_tokens (final (trading_cycle exchange g)) < remaining_tokens g) /\
  forall id,
    In id (active_orders (final (trading_cycle exchange g))) ->
    exists a q, create_limit_buy_order exchange a q = Returned id.
Proof.
  intros Hp Hb Hle Hraise.
  assert (Hs : sell_trigger p = true) by now apply Qle_bool_iff.
  rewrite get_dynamic_trade_amount_run. cbn [value fst].
  split; [|split; [|split]].
  - eexists. now apply (sell_call_intro exchange g p book).
  - rewrite remaining_tokens_cycle, Hp, Hb, (sell_trigger_nonzero p Hs), Hs.
    reflexivity.
  - intro Hpos.
    rewrite remaining_tokens_cycle, Hp, Hb, (sell_trigger_nonzero p Hs), Hs.
    pose proof (dynamic_amount_positive (remaining_tokens g) book Hpos). lra.
  - intro id.
    rewrite (trading_cycle_trade exchange p book g Hp Hb
               (sell_trigger_nonzero p Hs)), trade_run.
    cbn [final fst snd active_orders]. rewrite Hs, Hraise. simpl.
    destruct (buy_trigger p); [|intros []].
    destruct (create_limit_buy_order exchange _ _) eqn:E; [|intros []].
    intros [<- | []]. eauto.
Qed.

Lemma counter_lowered_when_sell_raises_witness :
  remaining_tokens (final (trading_cycle (Sample.rejecting 0.31) initial))
  = remaining_tokens initial
    - value (get_dynamic_trade_amount Sample.book initial).
Proof.
  apply (counter_lowered_when_sell_raises
           (Sample.rejecting 0.31) initial 0.31 Sample.book);
    try reflexivity.
  vm_compute. discriminate.
Defined.

(** ** The main loop *)

Lemma count_sells_app (l1 l2 : list call) :
  count_sells (l1 ++ l2) = (count_sells l1 + count_sells l2)%nat.
Proof. unfold count_sells. rewrite filter_app. apply length_app. Qed.

Lemma count_sells_cancels (ids : list order_id) :
  count_sells (map CancelOrder ids) = 0%nat.
Proof. induction ids as [|id ids IH]; [reflexivity | exact IH]. Qed.

(** The number of limit sells of an iteration. *)
Lemma count_sells_cycle (exchange : Exchange) (g : globals) :
  count_sells (calls (trading_cycle exchange g)) =
  match get_price exchange, get_order_book exchange with
  | Some p, Some book =>
      if Qeq_bool p 0 then 0%nat else if sell_trigger p then 1%nat else 0%nat
  | _, _ => 0%nat
  end.
Proof.
  destruct (trading_cycle_cases exchange g)
    as [[-> H] | (p & book & -> & -> & -> & ->)].
  - destruct (get_price exchange) as [p|]; [|reflexivity].
    destruct H as [H | ->];
      [simpl in H; rewrite H; destruct (get_order_book exchange)|];
      reflexivity.
  - rewrite trade_run. unfold calls, snd, decisions.
    rewrite !count_sells_app, count_sells_cancels.
    destruct (sell_trigger p), (buy_trigger p); reflexivity.
Qed.

(** A sell takes at least the base size off the counter, or all of it. *)
Lemma sell_lowers_counter (remaining : Q) (book : order_book) (k : nat) :
  0 < remaining ->
  remaining <= inject_Z (Z.of_nat k) * BASE_TRADE_AMOUNT ->
  exists k', k = S k' /\
    remaining - dynamic_amount remaining book
    <= inject_Z (Z.of_nat k') * BASE_TRADE_AMOUNT.
Proof.
  intros Hpos Hk. destruct k as [|k'].
  - change (inject_Z (Z.of_nat 0)) with 0 in Hk. lra.
  - exists k'. split; [reflexivity|].
    rewrite Nat2Z.inj_succ in Hk. unfold Z.succ in Hk.
    rewrite inject_Z_plus in Hk.
    assert (Hk0 : 0 <= inject_Z (Z.of_nat k')).
    { change 0 with (inject_Z 0). rewrite <- Zle_Qle. apply Nat2Z.is_nonneg. }
    assert (HB : 0 <= inject_Z (Z.of_nat k') * BASE_TRADE_AMOUNT).
    { apply Qmult_le_0_compat; [exact Hk0 | discriminate]. }
    change (inject_Z 1) with 1 in Hk.
    destruct (dynamic_amount_cases remaining book) as [[-> _] | [Hb _]]; lra.
Qed.

Lemma main_loop_sells (market : list Exchange) :
  forall (k : nat) (g : globals),
    remaining_tokens g <= inject_Z (Z.of_nat k) * BASE_TRADE_AMOUNT ->
    (count_sells (calls (main_loop market g)) <= k)%nat.
Proof.
  induction market as [|exchange later IH]; intros k g Hk.
  - apply Nat.le_0_l.
  - rewrite main_loop_cons.
    destruct (Qlt_bool 0 (remaining_tokens g)) eqn:Hpos; [|apply Nat.le_0_l].
    apply Qlt_bool_iff in Hpos.
    cbn [calls snd]. rewrite count_sells_app, count_sells_cycle.
    pose proof (remaining_tokens_cycle exchange g) as Hrem.
    destruct (get_price exchange) as [p|];
      [|simpl; apply IH; rewrite Hrem; exact Hk].
    destruct (get_order_book exchange) as [book|];
      [|simpl; apply IH; rewrite Hrem; exact Hk].
    destruct (Qeq_bool p 0); [simpl; apply IH; rewrite Hrem; exact Hk|].
    destruct (sell_trigger p); [|simpl; apply IH; rewrite Hrem; exact Hk].
    destruct (sell_lowers_counter (remaining_tokens g) book k Hpos Hk)
      as (k' & -> & Hk').
    simpl. apply le_n_S. apply IH. rewrite Hrem. exact Hk'.
Qed.

(** X6.  The loop sells out in boundedly many sells: from a counter of
    at most k times [BASE_TRADE_AMOUNT] it submits at most k limit sells,
    whatever the exchange answers and however long it runs; from the
    initial 5,000,000 tokens that is at most 20 limit sells. *)
Theorem at_most_twenty_sells (market : list Exchange) :
  (forall (k : nat) (g : globals),
     remaining_tokens g <= inject_Z (Z.of_nat k) * BASE_TRADE_AMOUNT ->
     (count_sells (calls (main_loop market g)) <= k)%nat) /\
  (count_sells (calls (main_loop market initial)) <= 20)%nat.
Proof.
  split; [apply main_loop_sells|].
  apply main_loop_sells. vm_compute. discriminate.
Qed.

Lemma at_most_twenty_sells_witness :
  (count_sells
     (calls (main_loop [Sample.calm 0.35; Sample.no_ticker; Sample.calm 0.31]
               after_first_cycle)) <= 17)%nat.
Proof.
  apply (at_most_twenty_sells
           [Sample.calm 0.35; Sample.no_ticker; Sample.calm 0.31]).
  vm_compute. discriminate.
Defined.

(** X8.  When an iteration takes the counter to zero the loop ends with
    it: no later answer of the exchange is looked at and no further call
    is made, so the orders that iteration placed stay in [active_orders]
    and are never sent a cancel request. *)
Theorem loop_ends_with_last_sell (exchange : Exchange)
    (later : list Exchange) (g : globals) :
  0 < remaining_tokens g ->
  remaining_tokens (final (trading_cycle exchange g)) <= 0 ->
  main_loop (exchange :: later) g = trading_cycle exchange g.
Proof.
  intros Hpos Hend. rewrite main_loop_cons.
  apply Qlt_bool_iff in Hpos. rewrite Hpos.
  rewrite (main_loop_stopped later _ Hend). cbn [final calls fst snd].
  rewrite app_nil_r.
  destruct (trading_cycle exchange g) as [[[] g'] c]. reflexivity.
Qed.

Lemma loop_ends_with_last_sell_witness :
  main_loop [Sample.calm 0.35; Sample.calm 0.35; Sample.calm 0.35]
    {| remaining_tokens := 600000; active_orders := [] |}
  = trading_cycle (Sample.calm 0.35)
      {| remaining_tokens := 600000; active_orders := [] |}.
Proof.
  apply (loop_ends_with_last_sell (Sample.calm 0.35)
           [Sample.calm 0.35; Sample.calm 0.35]
           {| remaining_tokens := 600000; active_orders := [] |}).
  - reflexivity.
  - vm_compute. discriminate.
Defined.

(** ** The list of active orders *)

Lemma placed_length (r : result order_id) : (List.length (placed r) <= 1)%nat.
Proof. destruct r; simpl; lia. Qed.

Lemma active_orders_cycle (exchange : Exchange) (g : globals) :
  active_orders (final (trading_cycle exchange g)) = active_orders g \/
  (List.length (active_orders (final (trading_cycle exchange g))) <= 2)%nat.
Proof.
  destruct (trading_cycle_cases exchange g)
    as [[-> _] | (p & book & _ & _ & _ & ->)]; [now left | right].
  rewrite trade_run. cbn [final fst snd active_orders]. rewrite length_app.
  set (r1 := create_limit_sell_order exchange _ _).
  set (r2 := create_limit_buy_order exchange _ _).
  pose proof (placed_length r1) as H1. pose proof (placed_length r2) as H2.
  destruct (sell_trigger p), (buy_trigger p); simpl; lia.
Qed.

Lemma cancel_attempts_cycle (exchange : Exchange) (g : globals) :
  cancel_attempts (calls (trading_cycle exchange g)) = [] \/
  cancel_attempts (calls (trading_cycle exchange g)) = active_orders g.
Proof.
  destruct (trading_cycle_cases exchange g)
    as [[-> _] | (p & book & _ & _ & _ & ->)]; [now left | right].
  apply cancel_attempts_trade.
Qed.

(** X9.  At the head of the loop [active_orders] never holds more than
    two ids (the sell and the buy of the last iteration that traded), so
    an iteration sends at most two cancel requests. *)
Theorem active_orders_at_most_two (g : globals) :
  reachable g ->
  (List.length (active_orders g) <= 2)%nat /\
  forall exchange,
    (List.length (cancel_attempts (calls (trading_cycle exchange g))) <= 2)%nat.
Proof.
  intro Hg.
  assert (H : (List.length (active_orders g) <= 2)%nat).
  { induction Hg as [|exchange g Hg IH Hpos]; [simpl; lia|].
    destruct (active_orders_cycle exchange g) as [-> | H]; assumption. }
  split; [exact H|]. intro exchange.
  destruct (cancel_attempts_cycle exchange g) as [-> | ->]; [simpl; lia | exact H].
Qed.

Lemma active_orders_at_most_two_witness :
  (List.length (active_orders after_first_cycle) <= 2)%nat.
Proof.
  apply (active_orders_at_most_two after_first_cycle).
  apply reachable_cycle; [apply reachable_initial | reflexivity].
Defined.

(** ** The market maker's orders *)

Lemma py_max_same (a : Q) : py_max a a = a.
Proof. unfold py_max. destruct (Qlt_bool a a); reflexivity. Qed.

(** X10.  When the open orders cannot be fetched, [get_mm_orders] gives
    the empty list instead of failing; and whenever it gives no order, a
    limit buy of the iteration is priced exactly at
    current_price * (1 - DEPTH_PERCENTAGE). *)
Theorem buy_price_without_mm_orders (exchange : Exchange) (g : globals) :
  (fetch_open_orders exchange = Raised -> get_mm_orders exchange = []) /\
  (get_mm_orders exchange = [] ->
   forall a pr,
     In (LimitBuy a pr) (calls (trading_cycle exchange g)) ->
     exists current_price,
       get_price exchange = Some current_price /\
       pr = current_price * (1 - DEPTH_PERCENTAGE)).
Proof.
  split.
  - intro H. unfold get_mm_orders. rewrite H. reflexivity.
  - intros Hmm a pr Hin. apply buy_call_inv in Hin.
    destruct Hin as (p & _ & Hp & _ & _ & _ & ->).
    exists p. split; [exact Hp|].
    unfold buy_price_of. rewrite Hmm. simpl. apply py_max_same.
Qed.

Lemma buy_price_without_mm_orders_witness :
  get_mm_orders (Sample.rejecting 0.31) = [] /\
  exists current_price,
    get_price (Sample.rejecting 0.31) = Some current_price /\
    0.3038 = current_price * (1 - DEPTH_PERCENTAGE).
Proof.
  split.
  - apply (buy_price_without_mm_orders (Sample.rejecting 0.31) initial).
    reflexivity.
  - apply (buy_price_without_mm_orders (Sample.rejecting 0.31) initial)
      with (a := 750000.0).
    + reflexivity.
    + vm_compute. right. left. reflexivity.
Defined.

(** X11.  The sell that empties the counter is followed by a buy of
    size zero: in an iteration that starts with a positive counter of at
    most [BASE_TRADE_AMOUNT], at a price of at least [MIN_SELL_PRICE],
    the limit sell has the size of the whole counter, the counter ends
    at zero, and the limit buy of the same iteration is submitted with a
    size equal to zero. *)
Theorem zero_size_buy_after_last_sell (exchange : Exchange) (g : globals)
    (p : Q) (book : order_book) :
  0 < remaining_tokens g ->
  remaining_tokens g <= BASE_TRADE_AMOUNT ->
  get_price exchange = Some p ->
  get_order_book exchange = Some book ->
  MIN_SELL_PRICE <= p ->
  (exists q,
     In (LimitSell (remaining_tokens g) q) (calls (trading_cycle exchange g))) /\
  remaining_tokens (final (trading_cycle exchange g)) == 0 /\
  exists a q,
    In (LimitBuy a q) (calls (trading_cycle exchange g)) /\ a == 0.
Proof.
  intros Hpos Hsmall Hp Hb Hle.
  assert (Hs : sell_trigger p = true) by now apply Qle_bool_iff.
  assert (Hall : dynamic_amount (remaining_tokens g) book = remaining_tokens g).
  { destruct (dynamic_amount_cases (remaining_tokens g) book)
      as [[E _] | [HB Hlt]]; [exact E | lra]. }
  split; [|split].
  - eexists. rewrite <- Hall at 1.
    now apply (sell_call_intro exchange g p book).
  - rewrite remaining_tokens_cycle, Hp, Hb, (sell_trigger_nonzero p Hs), Hs, Hall.
    ring.
  - do 2 eexists. split.
    + apply (buy_call_intro exchange g p book Hp Hb).
      now apply sell_trigger_buy_trigger.
    + unfold remaining_after_sell. rewrite Hs, Hall.
      assert (H0 : 0 <= remaining_tokens g - remaining_tokens g) by lra.
      destruct (dynamic_amount_bounds _ book H0) as [Hlo Hhi]. lra.
Qed.

Lemma zero_size_buy_after_last_sell_witness :
  remaining_tokens
    (final (trading_cycle (Sample.calm 0.35)
              {| remaining_tokens := 1000; active_orders := [] |})) == 0.
Proof.
  apply (zero_size_buy_after_last_sell (Sample.calm 0.35)
           {| remaining_tokens := 1000; active_orders := [] |}
           0.35 Sample.book);
    try reflexivity; vm_compute; discriminate.
Defined.

(** * Properties of mock_test_bot.py *)

(** ** The bookkeeping of the mock bot *)

Lemma run_prices_snoc (prices : list Q) (p : Q) (b : MockBot.bot) :
  MockRun.run_prices (prices ++ [p]) b
  = MockBot.simulate_trade p (MockRun.run_prices prices b).
Proof. unfold MockRun.run_prices. rewrite fold_left_app. reflexivity. Qed.

Lemma mock_sell_buy_trigger (p : Q) :
  MockBot.sell_trigger p = true -> MockBot.buy_trigger p = true.
Proof. exact (sell_trigger_buy_trigger p). Qed.

(** With at least the base size in hand, the mock sells the base size. *)
Lemma mock_sell_amount (remaining : Q) :
  MockBot.BASE_TRADE_AMOUNT <= remaining ->
  py_min MockBot.BASE_TRADE_AMOUNT remaining = MockBot.BASE_TRADE_AMOUNT.
Proof.
  intro H. unfold py_min. apply Qlt_bool_false_iff in H. rewrite H. reflexivity.
Qed.

(** Logging one more trade adds its field to the total of its type. *)
Lemma total_snoc (f : MockBot.trade_entry -> Q) (t : MockBot.trade_type)
    (l : list MockBot.trade_entry) (e : MockBot.trade_entry) :
  MockRun.total f t (l ++ [e])
  == MockRun.total f t l + (if MockRun.is_type t e then f e else 0).
Proof.
  unfold MockRun.total. rewrite filter_app, map_app. simpl.
  induction (map f (filter (MockRun.is_type t) l)) as [|x xs IH]; simpl.
  - destruct (MockRun.is_type t e); simpl; ring.
  - rewrite IH. ring.
Qed.

Lemma mock_conserve_step (p : Q) (s : MockBot.bot) :
  MockBot.remaining_tokens (MockBot.simulate_trade p s)
  + MockBot.total_sold (MockBot.simulate_trade p s)
  - MockBot.total_bought (MockBot.simulate_trade p s)
  == MockBot.remaining_tokens s + MockBot.total_sold s
     - MockBot.total_bought s.
Proof.
  unfold MockBot.simulate_trade, MockBot.simulate_buy, MockBot.simulate_sell.
  destruct (MockBot.sell_trigger p), (MockBot.buy_trigger p);
    try destruct (Qlt_bool 0 _); simpl; ring.
Qed.

Lemma mock_conserve_run (prices : list Q) (s : MockBot.bot) :
  MockBot.remaining_tokens (MockRun.run_prices prices s)
  + MockBot.total_sold (MockRun.run_prices prices s)
  - MockBot.total_bought (MockRun.run_prices prices s)
  == MockBot.remaining_tokens s + MockBot.total_sold s
     - MockBot.total_bought s.
Proof.
  induction prices as [|p l IH] using rev_ind; [simpl; ring|].
  rewrite run_prices_snoc, mock_conserve_step. exact IH.
Qed.

(** X12.  The mock conserves tokens: after any number of simulated
    cycles, at any prices, remaining_tokens + total_sold - total_bought
    is what it was before; for a fresh bot that is [TEST_BALANCE]. *)
Theorem mock_conserves_tokens (prices : list Q) (b : MockBot.bot) :
  (MockBot.remaining_tokens (MockRun.run_prices prices b)
   + MockBot.total_sold (MockRun.run_prices prices b)
   - MockBot.total_bought (MockRun.run_prices prices b)
   == MockBot.remaining_tokens b + MockBot.total_sold b
      - MockBot.total_bought b) /\
  (MockBot.remaining_tokens (MockRun.run_prices prices MockBot.init)
   + MockBot.total_sold (MockRun.run_prices prices MockBot.init)
   - MockBot.total_bought (MockRun.run_prices prices MockBot.init)
   == MockBot.TEST_BALANCE).
Proof.
  split; [apply mock_conserve_run|]. rewrite mock_conserve_run. simpl. ring.
Qed.

Lemma totals_match_log_step (p : Q) (b : MockBot.bot) :
  totals_match_log b -> totals_match_log (MockBot.simulate_trade p b).
Proof.
  unfold totals_match_log. intros (H1 & H2 & H3 & H4).
  unfold MockBot.simulate_trade, MockBot.simulate_buy, MockBot.simulate_sell.
  destruct (MockBot.sell_trigger p), (MockBot.buy_trigger p);
    try destruct (Qlt_bool 0 _); simpl;
    rewrite ?total_snoc; simpl; rewrite ?total_snoc; simpl;
    repeat split; rewrite ?H1, ?H2, ?H3, ?H4; ring.
Qed.

(** X13.  The running totals of the mock bot always agree with its log
    of trades: [total_sold] and [total_sell_value] are the summed amounts
    and values of the logged SELL trades, [total_bought] and
    [total_buy_value] those of the logged BUY trades. *)
Theorem mock_totals_match_log (prices : list Q) :
  MockBot.total_sold (MockRun.run_prices prices MockBot.init)
  == MockRun.total MockBot.amount MockBot.SELL
       (MockBot.trades (MockRun.run_prices prices MockBot.init)) /\
  MockBot.total_bought (MockRun.run_prices prices MockBot.init)
  == MockRun.total MockBot.amount MockBot.BUY
       (MockBot.trades (MockRun.run_prices prices MockBot.init)) /\
  MockBot.total_sell_value (MockRun.run_prices prices MockBot.init)
  == MockRun.total MockBot.value MockBot.SELL
       (MockBot.trades (MockRun.run_prices prices MockBot.init)) /\
  MockBot.total_buy_value (MockRun.run_prices prices MockBot.init)
  == MockRun.total MockBot.value MockBot.BUY
       (MockBot.trades (MockRun.run_prices prices MockBot.init)).
Proof.
  change (totals_match_log (MockRun.run_prices prices MockBot.init)).
  induction prices as [|p prices IH] using rev_ind.
  - unfold totals_match_log. simpl. repeat split; reflexivity.
  - rewrite run_prices_snoc. now apply totals_match_log_step.
Qed.

(** ** The balance of the mock bot *)

Lemma mock_base_positive : Qlt_bool 0 MockBot.BASE_TRADE_AMOUNT = true.
Proof. reflexivity. Qed.

(** What one simulated cycle does to a bot that holds at least the base
    size. *)
Lemma mock_step_remaining (p : Q) (b : MockBot.bot) :
  MockBot.BASE_TRADE_AMOUNT <= MockBot.remaining_tokens b ->
  MockBot.remaining_tokens (MockBot.simulate_trade p b)
  == MockBot.remaining_tokens b
     + (if MockBot.sell_trigger p then 0
        else if MockBot.buy_trigger p then MockBot.BASE_TRADE_AMOUNT else 0).
Proof.
  intro H.
  unfold MockBot.simulate_trade, MockBot.simulate_buy, MockBot.simulate_sell.
  destruct (MockBot.sell_trigger p) eqn:Hs.
  - rewrite (mock_sell_buy_trigger p Hs), (mock_sell_amount _ H),
      mock_base_positive. simpl. ring.
  - destruct (MockBot.buy_trigger p); simpl; ring.
Qed.

Lemma mock_step_grows (p : Q) (b : MockBot.bot) :
  MockBot.BASE_TRADE_AMOUNT <= MockBot.remaining_tokens b ->
  MockBot.remaining_tokens b
  <= MockBot.remaining_tokens (MockBot.simulate_trade p b).
Proof.
  intro H. rewrite (mock_step_remaining p b H).
  destruct (MockBot.sell_trigger p); [lra|].
  destruct (MockBot.buy_trigger p); [|lra].
  unfold MockBot.BASE_TRADE_AMOUNT. lra.
Qed.

Lemma mock_run_grows (prices : list Q) (b : MockBot.bot) :
  MockBot.BASE_TRADE_AMOUNT <= MockBot.remaining_tokens b ->
  MockBot.remaining_tokens b
  <= MockBot.remaining_tokens (MockRun.run_prices prices b).
Proof.
  intro H. induction prices as [|p l IH] using rev_ind; [apply Qle_refl|].
  rewrite run_prices_snoc.
  eapply Qle_trans; [exact IH|]. apply mock_step_grows.
  eapply Qle_trans; [exact H | exact IH].
Qed.

Lemma mock_step_trades (p : Q) (b : MockBot.bot) :
  MockBot.BASE_TRADE_AMOUNT <= MockBot.remaining_tokens b ->
  MockBot.trades (MockBot.simulate_trade p b) =
  MockBot.trades b ++
  (if MockBot.sell_trigger p
   then [{| MockBot.type := MockBot.SELL; MockBot.price := p;
            MockBot.amount := MockBot.BASE_TRADE_AMOUNT;
            MockBot.value := MockBot.BASE_TRADE_AMOUNT * p |}]
   else []) ++
  (if MockBot.buy_trigger p
   then [{| MockBot.type := MockBot.BUY; MockBot.price := p;
            MockBot.amount := MockBot.BASE_TRADE_AMOUNT;
            MockBot.value := MockBot.BASE_TRADE_AMOUNT * p |}]
   else []).
Proof.
  intro H.
  unfold MockBot.simulate_trade, MockBot.simulate_buy, MockBot.simulate_sell.
  destruct (MockBot.sell_trigger p) eqn:Hs.
  - rewrite (mock_sell_buy_trigger p Hs), (mock_sell_amount _ H),
      mock_base_positive. simpl. rewrite <- app_assoc. reflexivity.
  - destruct (MockBot.buy_trigger p); simpl; rewrite ?app_nil_r; reflexivity.
Qed.

(** The totals after one simulated cycle of a bot that holds at least
    the base size. *)
Lemma mock_step_totals (p : Q) (b : MockBot.bot) :
  MockBot.BASE_TRADE_AMOUNT <= MockBot.remaining_tokens b ->
  MockBot.total_sold (MockBot.simulate_trade p b)
  = (if MockBot.sell_trigger p
     then MockBot.total_sold b + MockBot.BASE_TRADE_AMOUNT
     else MockBot.total_sold b) /\
  MockBot.total_bought (MockBot.simulate_trade p b)
  = (if MockBot.buy_trigger p
     then MockBot.total_bought b + MockBot.BASE_TRADE_AMOUNT
     else MockBot.total_bought b).
Proof.
  intro H.
  unfold MockBot.simulate_trade, MockBot.simulate_buy, MockBot.simulate_sell.
  destruct (MockBot.sell_trigger p) eqn:Hs.
  - rewrite (mock_sell_buy_trigger p Hs), (mock_sell_amount _ H),
      mock_base_positive. split; reflexivity.
  - destruct (MockBot.buy_trigger p); split; reflexivity.
Qed.

Lemma mock_triggers_at (p : Q) :
  (MockBot.MIN_SELL_PRICE <= p ->
   MockBot.sell_trigger p = true /\ MockBot.buy_trigger p = true) /\
  (MockBot.FLOOR_PRICE <= p -> p < MockBot.MIN_SELL_PRICE ->
   MockBot.sell_trigger p = false /\ MockBot.buy_trigger p = true) /\
  (p < MockBot.FLOOR_PRICE ->
   MockBot.sell_trigger p = false /\ MockBot.buy_trigger p = false).
Proof.
  unfold MockBot.sell_trigger, MockBot.buy_trigger.
  split; [|split].
  - intro H. assert (Hs : MockBot.sell_trigger p = true)
      by now apply Qle_bool_iff.
    split; [exact Hs | exact (mock_sell_buy_trigger p Hs)].
  - intros Hf Hp. split.
    + apply not_true_iff_false. rewrite Qle_bool_iff. now apply Qlt_not_le.
    + apply andb_true_iff. split; [|now apply Qle_bool_iff].
      apply Qlt_bool_iff.
      unfold MockBot.LAUNCH_PRICE, MockBot.FLOOR_PRICE in *. lra.
  - intro Hp.
    assert (Hf : Qle_bool MockBot.FLOOR_PRICE p = false)
      by (apply not_true_iff_false; rewrite Qle_bool_iff; now apply Qlt_not_le).
    split; [|rewrite Hf; apply andb_false_r].
    apply not_true_iff_false. rewrite Qle_bool_iff.
    unfold MockBot.MIN_SELL_PRICE, MockBot.FLOOR_PRICE in *. lra.
Qed.

(** X14.  One simulated cycle, for a bot that holds at least
    [BASE_TRADE_AMOUNT] tokens.  At a price of at least [MIN_SELL_PRICE]
    it sells the base size and buys it back: [total_sold] and
    [total_bought] both grow by the base size, a SELL and then a BUY of
    the base size at that price are logged, and the balance is unchanged.
    At a price from [FLOOR_PRICE] up to [MIN_SELL_PRICE] it only buys:
    [total_bought] and the balance grow by the base size, [total_sold]
    is unchanged and one BUY is logged.  Below [FLOOR_PRICE] the bot is
    unchanged. *)
Theorem mock_balance_step (p : Q) (b : MockBot.bot) :
  MockBot.BASE_TRADE_AMOUNT <= MockBot.remaining_tokens b ->
  (MockBot.MIN_SELL_PRICE <= p ->
   MockBot.remaining_tokens (MockBot.simulate_trade p b)
   == MockBot.remaining_tokens b /\
   MockBot.total_sold (MockBot.simulate_trade p b)
   = MockBot.total_sold b + MockBot.BASE_TRADE_AMOUNT /\
   MockBot.total_bought (MockBot.simulate_trade p b)
   = MockBot.total_bought b + MockBot.BASE_TRADE_AMOUNT /\
   MockBot.trades (MockBot.simulate_trade p b)
   = MockBot.trades b ++ [mock_sell_entry p; mock_buy_entry p]) /\
  (MockBot.FLOOR_PRICE <= p -> p < MockBot.MIN_SELL_PRICE ->
   MockBot.remaining_tokens (MockBot.simulate_trade p b)
   == MockBot.remaining_tokens b + MockBot.BASE_TRADE_AMOUNT /\
   MockBot.total_sold (MockBot.simulate_trade p b) = MockBot.total_sold b /\
   MockBot.total_bought (MockBot.simulate_trade p b)
   = MockBot.total_bought b + MockBot.BASE_TRADE_AMOUNT /\
   MockBot.trades (MockBot.simulate_trade p b)
   = MockBot.trades b ++ [mock_buy_entry p]) /\
  (p < MockBot.FLOOR_PRICE -> MockBot.simulate_trade p b = b).
Proof.
  intro H.
  destruct (mock_triggers_at p) as (Hhigh & Hmid & Hlow).
  destruct (mock_step_totals p b H) as [Hsold Hbought].
  pose proof (mock_step_remaining p b H) as Hrem.
  pose proof (mock_step_trades p b H) as Htr.
  split; [|split].
  - intro Hp. destruct (Hhigh Hp) as [Hs Hb].
    rewrite Hs, ?Hb in *. repeat split; trivial. rewrite Hrem. ring.
  - intros Hf Hp. destruct (Hmid Hf Hp) as [Hs Hb].
    rewrite Hs, ?Hb in *. repeat split; trivial.
  - intro Hp. destruct (Hlow Hp) as [Hs Hb].
    unfold MockBot.simulate_trade, MockBot.simulate_buy, MockBot.simulate_sell.
    rewrite Hs, Hb. reflexivity.
Qed.

Lemma mock_balance_step_witness :
  (MockBot.remaining_tokens (MockBot.simulate_trade 0.35 MockBot.init)
   == MockBot.remaining_tokens MockBot.init /\
   MockBot.total_sold (MockBot.simulate_trade 0.35 MockBot.init)
   = MockBot.total_sold MockBot.init + MockBot.BASE_TRADE_AMOUNT /\
   MockBot.total_bought (MockBot.simulate_trade 0.35 MockBot.init)
   = MockBot.total_bought MockBot.init + MockBot.BASE_TRADE_AMOUNT /\
   MockBot.trades (MockBot.simulate_trade 0.35 MockBot.init)
   = MockBot.trades MockBot.init ++ [mock_sell_entry 0.35; mock_buy_entry 0.35]) /\
  (MockBot.remaining_tokens (MockBot.simulate_trade 0.25 MockBot.init)
   == MockBot.remaining_tokens MockBot.init + MockBot.BASE_TRADE_AMOUNT /\
   MockBot.total_sold (MockBot.simulate_trade 0.25 MockBot.init)
   = MockBot.total_sold MockBot.init /\
   MockBot.total_bought (MockBot.simulate_trade 0.25 MockBot.init)
   = MockBot.total_bought MockBot.init + MockBot.BASE_TRADE_AMOUNT /\
   MockBot.trades (MockBot.simulate_trade 0.25 MockBot.init)
   = MockBot.trades MockBot.init ++ [mock_buy_entry 0.25]) /\
  MockBot.simulate_trade 0.2 MockBot.init = MockBot.init.
Proof.
  split; [|split].
  - apply (mock_balance_step 0.35 MockBot.init); vm_compute; discriminate.
  - apply (mock_balance_step 0.25 MockBot.init);
      vm_compute; first [discriminate | reflexivity].
  - apply (mock_balance_step 0.2 MockBot.init);
      vm_compute; first [discriminate | reflexivity].
Defined.

(** X15.  The balance of the mock bot never falls below its initial
    [TEST_BALANCE], and it never has sold more than it has bought:
    every sell is bought back in the same cycle. *)
Theorem mock_balance_never_falls (prices : list Q) :
  MockBot.TEST_BALANCE
  <= MockBot.remaining_tokens (MockRun.run_prices prices MockBot.init) /\
  MockBot.total_sold (MockRun.run_prices prices MockBot.init)
  <= MockBot.total_bought (MockRun.run_prices prices MockBot.init).
Proof.
  assert (H : MockBot.TEST_BALANCE
              <= MockBot.remaining_tokens
                   (MockRun.run_prices prices MockBot.init)).
  { apply (mock_run_grows prices MockBot.init). simpl. discriminate. }
  split; [exact H|].
  pose proof (mock_conserve_run prices MockBot.init) as Hc. simpl in Hc.
  change MockBot.TEST_BALANCE with 5000000 in *. lra.
Qed.

(** ** The log of the mock bot *)

(** One simulated cycle adds at most two trades to the log and keeps
    what was logged before. *)
Lemma mock_step_logs_two (p : Q) (b : MockBot.bot) :
  exists logged,
    MockBot.trades (MockBot.simulate_trade p b) = MockBot.trades b ++ logged /\
    (List.length logged <= 2)%nat.
Proof.
  unfold MockBot.simulate_trade, MockBot.simulate_buy, MockBot.simulate_sell.
  destruct (MockBot.sell_trigger p), (MockBot.buy_trigger p);
    try destruct (Qlt_bool 0 _); simpl;
    first [ now (exists []; rewrite app_nil_r; split; [reflexivity | simpl; lia])
          | now (eexists [_]; split; [reflexivity | simpl; lia])
          | now (eexists [_; _]; rewrite <- app_assoc; split;
                 [reflexivity | simpl; lia]) ].
Qed.

(** X16.  The log of the mock bot.  Each simulated cycle, at any price
    and for any bot, keeps the trades logged before and adds at most two;
    so a run from a fresh bot logs at most two trades per cycle.  In such
    a run every logged trade has the size [BASE_TRADE_AMOUNT] and the
    value size * price; a SELL is only logged at a price of at least
    [MIN_SELL_PRICE], a BUY only at a price above [LAUNCH_PRICE] and of
    at least [FLOOR_PRICE]. *)
Theorem mock_log_entries (prices : list Q) :
  (forall p b,
     exists logged,
       MockBot.trades (MockBot.simulate_trade p b)
       = MockBot.trades b ++ logged /\
       (List.length logged <= 2)%nat) /\
  (List.length (MockBot.trades (MockRun.run_prices prices MockBot.init))
   <= 2 * List.length prices)%nat /\
  forall e,
    In e (MockBot.trades (MockRun.run_prices prices MockBot.init)) ->
    MockBot.amount e = MockBot.BASE_TRADE_AMOUNT /\
    MockBot.value e = MockBot.amount e * MockBot.price e /\
    (MockBot.type e = MockBot.SELL -> MockBot.MIN_SELL_PRICE <= MockBot.price e) /\
    (MockBot.type e = MockBot.BUY ->
     MockBot.LAUNCH_PRICE < MockBot.price e /\
     MockBot.FLOOR_PRICE <= MockBot.price e).
Proof.
  split; [exact mock_step_logs_two|].
  induction prices as [|p l [IHlen IH]] using rev_ind.
  - split; [simpl; lia | intros e []].
  - rewrite run_prices_snoc.
    assert (Hrem : MockBot.BASE_TRADE_AMOUNT
                   <= MockBot.remaining_tokens
                        (MockRun.run_prices l MockBot.init)).
    { eapply Qle_trans; [|apply mock_run_grows]; simpl; discriminate. }
    rewrite (mock_step_trades p _ Hrem). split.
    + rewrite !length_app, Nat.add_1_r.
      destruct (MockBot.sell_trigger p), (MockBot.buy_trigger p); simpl; lia.
    + intros e Hin. apply in_app_or in Hin. destruct Hin as [Hin | Hin];
        [now apply IH|].
      apply in_app_or in Hin. destruct Hin as [Hin | Hin].
      * destruct (MockBot.sell_trigger p) eqn:Hs; [|destruct Hin].
        destruct Hin as [<- | []]. simpl. repeat split; try discriminate.
        intros _. now apply Qle_bool_iff.
      * destruct (MockBot.buy_trigger p) eqn:Hb; [|destruct Hin].
        destruct Hin as [<- | []]. simpl.
        apply andb_true_iff in Hb. destruct Hb as [Hl Hf].
        repeat split; try discriminate;
          [now apply Qlt_bool_iff | now apply Qle_bool_iff].
Qed.

Lemma mock_log_entries_witness :
  MockBot.amount (mock_buy_entry 0.25) = MockBot.BASE_TRADE_AMOUNT /\
  MockBot.value (mock_buy_entry 0.25)
  = MockBot.amount (mock_buy_entry 0.25) * MockBot.price (mock_buy_entry 0.25) /\
  (MockBot.type (mock_buy_entry 0.25) = MockBot.SELL ->
   MockBot.MIN_SELL_PRICE <= MockBot.price (mock_buy_entry 0.25)) /\
  (MockBot.type (mock_buy_entry 0.25) = MockBot.BUY ->
   MockBot.LAUNCH_PRICE < MockBot.price (mock_buy_entry 0.25) /\
   MockBot.FLOOR_PRICE <= MockBot.price (mock_buy_entry 0.25)).
Proof.
  apply (mock_log_entries [0.2; 0.25]).
  vm_compute. left. reflexivity.
Defined.

(** ** The simulated market *)

(** X17.  A price move of the simulated market: for a positive price and
    a draw within [-VOLATILITY, VOLATILITY], the new price stays positive
    and within 3.1% of the old one; it becomes the current price and the
    last entry of the price history, and one timestamp is added. *)
Theorem update_price_bounds (u : Q) (now : Z) (m : MockMarket.market) :
  0 < MockMarket.current_price m ->
  - MockMarket.VOLATILITY <= u -> u <= MockMarket.VOLATILITY ->
  0 < fst (MockMarket.update_price u now m) /\
  0.969 * MockMarket.current_price m <= fst (MockMarket.update_price u now m) /\
  fst (MockMarket.update_price u now m) <= 1.031 * MockMarket.current_price m /\
  MockMarket.current_price (snd (MockMarket.update_price u now m))
  = fst (MockMarket.update_price u now m) /\
  MockMarket.price_history (snd (MockMarket.update_price u now m))
  = MockMarket.price_history m ++ [fst (MockMarket.update_price u now m)] /\
  MockMarket.timestamps (snd (MockMarket.update_price u now m))
  = MockMarket.timestamps m ++ [now].
Proof.
  unfold MockMarket.update_price, MockMarket.VOLATILITY. intros Hp Hlo Hhi.
  cbn [fst snd MockMarket.current_price MockMarket.price_history
       MockMarket.timestamps].
  repeat split;
    destruct (Nat.ltb (Nat.modulo (List.length (MockMarket.price_history m)) 10) 5);
    nra.
Qed.

Lemma update_price_bounds_witness :
  0 < fst (MockMarket.update_price 0.03 0 MockMarket.init).
Proof.
  apply (update_price_bounds 0.03 0 MockMarket.init);
    vm_compute; first [reflexivity | discriminate].
Defined.

Lemma generate_order_book_book (ba aa : nat -> Q) (m : MockMarket.market) :
  fst (MockMarket.generate_order_book ba aa m) =
  {| bids :=
       [(MockMarket.current_price m
         - MockMarket.current_price m * 0.01 * inject_Z 1, ba 0%nat);
        (MockMarket.current_price m
         - MockMarket.current_price m * 0.01 * inject_Z 2, ba 1%nat);
        (MockMarket.current_price m
         - MockMarket.current_price m * 0.01 * inject_Z 3, ba 2%nat);
        (MockMarket.current_price m
         - MockMarket.current_price m * 0.01 * inject_Z 4, ba 3%nat);
        (MockMarket.current_price m
         - MockMarket.current_price m * 0.01 * inject_Z 5, ba 4%nat)];
     asks :=
       [(MockMarket.current_price m
         + MockMarket.current_price m * 0.01 * inject_Z 1, aa 0%nat);
        (MockMarket.current_price m
         + MockMarket.current_price m * 0.01 * inject_Z 2, aa 1%nat);
        (MockMarket.current_price m
         + MockMarket.current_price m * 0.01 * inject_Z 3, aa 2%nat);
        (MockMarket.current_price m
         + MockMarket.current_price m * 0.01 * inject_Z 4, aa 3%nat);
        (MockMarket.current_price m
         + MockMarket.current_price m * 0.01 * inject_Z 5, aa 4%nat)] |}.
Proof. reflexivity. Qed.



(** Five amounts of at most 10000 sum to at most 50000. *)
Lemma py_sum_five (a b c d e : Q) :
  a <= 10000 -> b <= 10000 -> c <= 10000 -> d <= 10000 -> e <= 10000 ->
  py_sum [a; b; c; d; e] * 0.5 <= 25000.
Proof. unfold py_sum. simpl. intros. lra. Qed.

(** X19.  On a book generated by the simulated market, whose drawn bid
    amounts are at most 10000 each, the trade size of the trading bot's
    [get_dynamic_trade_amount] is min(remaining_tokens,
    BASE_TRADE_AMOUNT): half of the summed bid amounts never reaches the
    base size.  This is, as a number, the sell size
    min(BASE_TRADE_AMOUNT, remaining_tokens) the mock bot uses. *)
Theorem dynamic_amount_on_mock_book (d : MockRun.draws)
    (m : MockMarket.market) (g : globals) :
  MockRun.in_range d ->
  value (get_dynamic_trade_amount
           (fst (MockMarket.generate_order_book
                   (MockRun.bid_amount d) (MockRun.ask_amount d) m)) g)
  = py_min (remaining_tokens g) BASE_TRADE_AMOUNT /\
  value (get_dynamic_trade_amount
           (fst (MockMarket.generate_order_book
                   (MockRun.bid_amount d) (MockRun.ask_amount d) m)) g)
  == py_min MockBot.BASE_TRADE_AMOUNT (remaining_tokens g).
Proof.
  intros (_ & _ & Hr).
  rewrite get_dynamic_trade_amount_run. cbn [value fst].
  assert (E : dynamic_amount (remaining_tokens g)
                (fst (MockMarket.generate_order_book
                        (MockRun.bid_amount d) (MockRun.ask_amount d) m))
              = py_min (remaining_tokens g) BASE_TRADE_AMOUNT).
  { unfold dynamic_amount. rewrite generate_order_book_book.
    cbn [bids firstn map snd]. f_equal. unfold py_max.
    assert (H : py_sum [MockRun.bid_amount d 0%nat; MockRun.bid_amount d 1%nat;
                        MockRun.bid_amount d 2%nat; MockRun.bid_amount d 3%nat;
                        MockRun.bid_amount d 4%nat] * 0.5 <= 25000)
      by (apply py_sum_five; apply Hr).
    assert (F : Qlt_bool BASE_TRADE_AMOUNT
                  (py_sum [MockRun.bid_amount d 0%nat; MockRun.bid_amount d 1%nat;
                           MockRun.bid_amount d 2%nat; MockRun.bid_amount d 3%nat;
                           MockRun.bid_amount d 4%nat] * 0.5) = false).
    { apply Qlt_bool_false_iff. unfold BASE_TRADE_AMOUNT. lra. }
    rewrite F. reflexivity. }
  split; [exact E|]. rewrite E, !py_min_Qmin. apply Q.min_comm.
Qed.

Lemma dynamic_amount_on_mock_book_witness :
  value (get_dynamic_trade_amount
           (fst (MockMarket.generate_order_book
                   (fun _ => 10000) (fun _ => 1000) MockMarket.init)) initial)
  = py_min (remaining_tokens initial) BASE_TRADE_AMOUNT.
Proof.
  apply (dynamic_amount_on_mock_book
           {| MockRun.u := 0.01; MockRun.now := 0;
              MockRun.bid_amount := fun _ => 10000;
              MockRun.ask_amount := fun _ => 1000 |}
           MockMarket.init initial).
  unfold MockRun.in_range. simpl.
  repeat split; vm_compute; discriminate.
Defined.

(** ** The simulation run *)

Lemma run_simulation_snoc (cycles : list MockRun.draws) (d : MockRun.draws) :
  MockRun.run_simulation (cycles ++ [d])
  = MockRun.simulate_trade d (MockRun.run_simulation cycles).
Proof. unfold MockRun.run_simulation. rewrite fold_left_app. reflexivity. Qed.

(** One simulated cycle, field by field. *)
Lemma simulate_trade_fields (d : MockRun.draws)
    (st : MockMarket.market * MockBot.bot) :
  MockMarket.current_price (fst (MockRun.simulate_trade d st))
  = fst (MockMarket.update_price (MockRun.u d) (MockRun.now d) (fst st)) /\
  MockMarket.price_history (fst (MockRun.simulate_trade d st))
  = MockMarket.price_history (fst st)
    ++ [fst (MockMarket.update_price (MockRun.u d) (MockRun.now d) (fst st))] /\
  MockMarket.timestamps (fst (MockRun.simulate_trade d st))
  = MockMarket.timestamps (fst st) ++ [MockRun.now d] /\
  snd (MockRun.simulate_trade d st)
  = MockBot.simulate_trade
      (fst (MockMarket.update_price (MockRun.u d) (MockRun.now d) (fst st)))
      (snd st).
Proof. repeat split. Qed.

Lemma update_price_positive (u : Q) (now : Z) (m : MockMarket.market) :
  0 < MockMarket.current_price m ->
  - MockMarket.VOLATILITY <= u -> u <= MockMarket.VOLATILITY ->
  0 < fst (MockMarket.update_price u now m).
Proof.
  unfold MockMarket.update_price, MockMarket.VOLATILITY. intros Hp Hlo Hhi.
  cbn [fst].
  destruct (Nat.ltb (Nat.modulo (List.length (MockMarket.price_history m)) 10) 5);
    nra.
Qed.

(** X20.  A simulation run from a fresh market and a fresh bot, with
    every draw in its range: the price history and the timestamps have
    one entry per cycle, every recorded price is positive, the current
    price is positive, and the bot is exactly the fresh bot taken through
    the recorded prices in order. *)
Theorem run_simulation_history (cycles : list MockRun.draws) :
  Forall MockRun.in_range cycles ->
  List.length (MockMarket.price_history (fst (MockRun.run_simulation cycles)))
  = List.length cycles /\
  List.length (MockMarket.timestamps (fst (MockRun.run_simulation cycles)))
  = List.length cycles /\
  Forall (fun p => 0 < p)
    (MockMarket.price_history (fst (MockRun.run_simulation cycles))) /\
  0 < MockMarket.current_price (fst (MockRun.run_simulation cycles)) /\
  snd (MockRun.run_simulation cycles)
  = MockRun.run_prices
      (MockMarket.price_history (fst (MockRun.run_simulation cycles)))
      MockBot.init.
Proof.
  induction cycles as [|d l IH] using rev_ind; intro Hall.
  - simpl. repeat split; constructor.
  - apply Forall_app in Hall. destruct Hall as [Hl Hd].
    destruct (IH Hl) as (H1 & H2 & H3 & H4 & H5).
    apply Forall_inv in Hd. destruct Hd as (Hlo & Hhi & _).
    rewrite run_simulation_snoc.
    destruct (simulate_trade_fields d (MockRun.run_simulation l))
      as (-> & -> & -> & ->).
    pose proof (update_price_positive (MockRun.u d) (MockRun.now d)
                  (fst (MockRun.run_simulation l)) H4 Hlo Hhi) as Hpos.
    rewrite !length_app, H1, H2, run_prices_snoc, <- H5.
    repeat split; trivial.
    apply Forall_app. split; [exact H3 | now constructor].
Qed.

Lemma run_simulation_history_witness :
  List.length
    (MockMarket.price_history
       (fst (MockRun.run_simulation
               [{| MockRun.u := 0.01; MockRun.now := 0;
                   MockRun.bid_amount := fun _ => 10000;
                   MockRun.ask_amount := fun _ => 1000 |}])))
  = 1%nat.
Proof.
  apply (run_simulation_history
           [{| MockRun.u := 0.01; MockRun.now := 0;
               MockRun.bid_amount := fun _ => 10000;
               MockRun.ask_amount := fun _ => 1000 |}]).
  constructor; [|constructor].
  unfold MockRun.in_range. simpl.
  repeat split; vm_compute; discriminate.
Defined.
